(** * midnight-local-network: wallet creation helper

    A shallow embedding of [src/config.ts], [src/commons.ts] and the
    [create-wallet] entry point, together with the properties of the
    fund-wait protocol, the configuration selector, the wallet lifecycle
    helper and the command line entry point.

    The wallet SDK, the ledger, RxJS and the logger are external: the SDK
    is a record of behaviours ([Sdk], [WalletHandle]) over which every
    statement quantifies; the RxJS operators used by the code are written
    out for timed streams. *)

From Stdlib Require Import ZArith NArith List String Ascii Lia Bool.
From Stdlib.Strings Require Import Byte.
From stdpp Require Import base option list gmap strings pretty.
Import ListNotations.

Local Open Scope string_scope.
Local Open Scope list_scope.
Local Open Scope Z_scope.

(** ** Data model *)

(** [NetworkId] of [@midnight-ntwrk/midnight-js-network-id]. *)
Inductive NetworkId := Undeployed | DevNet | TestNet | MainNet.

(** [interface Config] of [config.ts]. *)
Record Config := mkConfig {
  indexer : string;
  indexerWS : string;
  node : string;
  proofServer : string;
}.

(** The synchronisation lags of a snapshot, JavaScript [bigint]s. *)
Record Lag := mkLag { applyGap : Z; sourceGap : Z }.

Record SyncProgress := mkSyncProgress { lag : Lag; synced : bool }.

(** An entry of the transaction history; the code only counts them. *)
Record TransactionHistoryEntry := mkTx { transactionHash : string }.

(** Modelled from the spec: the wallet state is declared by the SDK, not by
    these sources. It holds the address, the balances (a mapping from token
    identifier to an unsigned integer amount), the optional sync progress
    and the transaction history. *)
Record WalletState := mkWalletState {
  address : string;
  balances : gmap string N;
  syncProgress : option SyncProgress;
  transactionHistory : list TransactionHistoryEntry;
}.

(** Errors a promise can reject with. [EmptyError] is what
    [Rx.firstValueFrom] rejects with when its source completes without a
    value. *)
Inductive Error :=
| EmptyError
| SdkError (message : string).

(** A timed stream as an observer sees it: the snapshots pushed so far,
    each with its arrival time in milliseconds, and how the stream goes on
    after them. *)
Inductive StreamEnd :=
| StillOpen                (* nothing more arrives, the stream stays open *)
| Completed                (* the source completes *)
| Failed (e : Error).      (* the source errors *)

Record Stream (A : Type) := mkStream {
  events : list (Z * A);
  ending : StreamEnd;
}.
Arguments mkStream {A}.
Arguments events {A}.
Arguments ending {A}.

(** What awaiting a promise gives: a value, a rejection, or nothing ever. *)
Inductive Settled (A : Type) :=
| Fulfilled (a : A)
| Rejected (e : Error)
| Pending.
Arguments Fulfilled {A}.
Arguments Rejected {A}.
Arguments Pending {A}.

(** ** The logger

    A call of the pino logger is recorded as it is made, whatever the level
    the logger was created with ([LOG_LEVEL], [info] by default). *)

Inductive Level := Info | Warn | LvlError.

(** The merging object of a pino call. *)
Inductive Bindings :=
| NoBindings
| BindNetwork (network : string)
| BindErr (err : Error)
| BindCloseErr (closeErr : Error).

Record LogCall := mkLogCall {
  level : Level;
  bindings : Bindings;
  msg : string;
}.

Definition info (m : string) : LogCall := mkLogCall Info NoBindings m.

(** Template-literal rendering of a [bigint] and of a [number] that holds a
    length. *)
Definition show_Z (z : Z) : string := pretty z.
Definition show_N (n : N) : string := pretty n.
Definition show_nat (n : nat) : string := pretty n.

(** ** The fund-wait protocol ([TestWallet.waitForFunds]) *)

Section FundWait.

(** [nativeToken()] of the ledger: the identifier of the native token. *)
Variable nativeToken : string.

Definition THROTTLE_MS : Z := 10000.

(** [Rx.throttleTime(10_000)] with its default configuration (leading
    edge only): the operator is either idle or silent until the timer it
    started at the last value it let through has fired. *)
Definition Throttle := option Z.

Definition throttle_passes (th : Throttle) (t : Z) : bool :=
  match th with
  | None => true
  | Some until => until <=? t
  end.

Definition throttle_start (t : Z) : Throttle := Some (t + THROTTLE_MS).

(** [state.syncProgress?.lag.applyGap ?? 0n] and its sibling. *)
Definition applyGap_of (state : WalletState) : Z :=
  match syncProgress state with
  | Some sp => applyGap (lag sp)
  | None => 0
  end.

Definition sourceGap_of (state : WalletState) : Z :=
  match syncProgress state with
  | Some sp => sourceGap (lag sp)
  | None => 0
  end.

(** The [Rx.tap] stage. *)
Definition tap_log (state : WalletState) : LogCall :=
  info ("Waiting for funds. Backend lag: " +:+ show_Z (sourceGap_of state)
        +:+ ", wallet lag: " +:+ show_Z (applyGap_of state)
        +:+ ", transactions="
        +:+ show_nat (length (transactionHistory state))).

(** [state.syncProgress?.synced === true]. *)
Definition is_synced (state : WalletState) : bool :=
  match syncProgress state with
  | Some sp => synced sp
  | None => false
  end.

(** [s.balances[nativeToken()] ?? 0n]. *)
Definition balance_or_zero (state : WalletState) : N :=
  match balances state !! nativeToken with
  | Some b => b
  | None => 0%N
  end.

(** [balance > 0n]. *)
Definition is_positive (balance : N) : bool := (0 <? balance)%N.

(** The subscriber [Rx.firstValueFrom] installs: waiting behind the
    throttle, or resolved and unsubscribed. *)
Inductive FundWait :=
| Waiting (th : Throttle)
| Resolved (balance : N).

(** One snapshot pushed through the pipe. *)
Definition fundwait_step (st : FundWait) (ev : Z * WalletState)
  : FundWait * list LogCall :=
  match st with
  | Resolved b => (Resolved b, [])
  | Waiting th =>
      let (t, state) := ev in
      if throttle_passes th t then
        let out := [tap_log state] in
        if is_synced state then
          let balance := balance_or_zero state in
          if is_positive balance then (Resolved balance, out)
          else (Waiting (throttle_start t), out)
        else (Waiting (throttle_start t), out)
      else (Waiting th, [])
  end.

Fixpoint fundwait_run (st : FundWait) (evs : list (Z * WalletState))
  : FundWait * list LogCall :=
  match evs with
  | [] => (st, [])
  | ev :: rest =>
      let (st1, out1) := fundwait_step st ev in
      let (st2, out2) := fundwait_run st1 rest in
      (st2, out1 ++ out2)
  end.

Definition waitForFunds (states : Stream WalletState)
  : Settled N * list LogCall :=
  let (st, out) := fundwait_run (Waiting None) (events states) in
  match st with
  | Resolved b => (Fulfilled b, out)
  | Waiting _ =>
      match ending states with
      | StillOpen => (Pending, out)
      | Completed => (Rejected EmptyError, out)
      | Failed e => (Rejected e, out)
      end
  end.

End FundWait.

(** ** The SDK and the process, as the code sees them *)

(** The seven arguments of [WalletBuilder.buildFromSeed], in their order. *)
Record BuildArgs := mkBuildArgs {
  arg_indexer : string;
  arg_indexerWS : string;
  arg_proofServer : string;
  arg_node : string;
  arg_seed : string;
  arg_networkId : NetworkId;
  arg_logLevel : string;
}.

(** A running wallet ([Wallet & Resource]): an opaque object of the SDK,
    given by what its three methods do. [w_state h n] is the stream the
    (n+1)-th call of [state()] on the handle returns. *)
Record WalletHandle := mkWalletHandle {
  wallet_id : nat;
  w_start : option Error;
  w_state : nat -> Stream WalletState;
  w_close : option Error;
}.

Record Sdk := mkSdk {
  nativeToken : string;
  buildFromSeed : BuildArgs -> Error + WalletHandle;
  getRandomValues : nat -> byte;
}.

(** Everything the process does that can be observed, in order. *)
Inductive Event :=
| EvSetNetworkId (id : NetworkId)
| EvStdout (line : string)
| EvStderr (line : string)
| EvLog (call : LogCall)
| EvBuild (args : BuildArgs)
| EvStart (wallet : nat)
| EvState (wallet : nat)
| EvClose (wallet : nat).

Record World := mkWorld {
  networkId : NetworkId;                 (* the process-wide identifier *)
  exitCode : option Z;                   (* [process.exitCode] *)
  drawn : nat;                           (* random bytes drawn so far *)
  this_wallet : option WalletHandle;     (* [TestWallet.wallet] *)
  main_wallet : option WalletHandle;     (* the local [wallet] of [main] *)
  trace : list Event;
}.

Definition emit (e : Event) (w : World) : World :=
  mkWorld (networkId w) (exitCode w) (drawn w) (this_wallet w)
          (main_wallet w) (trace w ++ [e]).

Definition with_networkId (id : NetworkId) (w : World) : World :=
  mkWorld id (exitCode w) (drawn w) (this_wallet w) (main_wallet w) (trace w).

Definition with_exitCode (c : Z) (w : World) : World :=
  mkWorld (networkId w) (Some c) (drawn w) (this_wallet w) (main_wallet w)
          (trace w).

Definition with_drawn (n : nat) (w : World) : World :=
  mkWorld (networkId w) (exitCode w) n (this_wallet w) (main_wallet w)
          (trace w).

Definition with_this_wallet (h : WalletHandle) (w : World) : World :=
  mkWorld (networkId w) (exitCode w) (drawn w) (Some h) (main_wallet w)
          (trace w).

Definition with_main_wallet (h : option WalletHandle) (w : World) : World :=
  mkWorld (networkId w) (exitCode w) (drawn w) (this_wallet w) h (trace w).

(** Projections of the trace: the lines written with [console.log] and
    with [console.error], the calls of the logger, and the construction
    calls. *)
Fixpoint pick {A} (f : Event -> option A) (tr : list Event) : list A :=
  match tr with
  | [] => []
  | e :: rest =>
      match f e with
      | Some a => a :: pick f rest
      | None => pick f rest
      end
  end.

Definition stdout_of (tr : list Event) : list string :=
  pick (fun e => match e with EvStdout l => Some l | _ => None end) tr.

Definition stderr_of (tr : list Event) : list string :=
  pick (fun e => match e with EvStderr l => Some l | _ => None end) tr.

Definition logged_of (tr : list Event) : list LogCall :=
  pick (fun e => match e with EvLog c => Some c | _ => None end) tr.

Definition builds_of (tr : list Event) : list BuildArgs :=
  pick (fun e => match e with EvBuild a => Some a | _ => None end) tr.

Definition is_close (e : Event) : bool :=
  match e with EvClose _ => true | _ => false end.

Definition is_state_of (id : nat) (e : Event) : bool :=
  match e with EvState i => Nat.eqb i id | _ => false end.

Definition count_events (p : Event -> bool) (tr : list Event) : nat :=
  length (List.filter p tr).

(** The stream the next call of [state()] on [h] returns. *)
Definition next_subscription (h : WalletHandle) (w : World)
  : Stream WalletState :=
  w_state h (count_events (is_state_of (wallet_id h)) (trace w)).

(** What happened between two worlds of one execution. *)
Definition since (w w' : World) : list Event :=
  drop (length (trace w)) (trace w').

Definition emit_all (es : list Event) (w : World) : World :=
  mkWorld (networkId w) (exitCode w) (drawn w) (this_wallet w)
          (main_wallet w) (trace w ++ es).

(** ** Control: return, throw, [process.exit], and waiting for ever *)

Inductive Outcome (A : Type) :=
| Ret (a : A)
| Throw (e : Error)
| Exit (code : Z)
| Blocked.
Arguments Ret {A}.
Arguments Throw {A}.
Arguments Exit {A}.
Arguments Blocked {A}.

Definition M (A : Type) : Type := World -> Outcome A * World.

Definition ret {A} (a : A) : M A := fun w => (Ret a, w).

Definition bind {A B} (m : M A) (k : A -> M B) : M B :=
  fun w =>
    match m w with
    | (Ret a, w1) => k a w1
    | (Throw e, w1) => (Throw e, w1)
    | (Exit c, w1) => (Exit c, w1)
    | (Blocked, w1) => (Blocked, w1)
    end.

Notation "x <- m ;; k" := (bind m (fun x => k))
  (at level 100, m at next level, right associativity).
Notation "m ;;; k" := (bind m (fun _ => k))
  (at level 100, right associativity).

Definition throw {A} (e : Error) : M A := fun w => (Throw e, w).
Definition process_exit {A} (code : Z) : M A := fun w => (Exit code, w).
Definition act (e : Event) : M unit := fun w => (Ret tt, emit e w).

(** [try { body } catch (e) { handler }]: only a thrown error is caught. *)
Definition try_catch {A} (body : M A) (handler : Error -> M A) : M A :=
  fun w =>
    match body w with
    | (Throw e, w1) => handler e w1
    | r => r
    end.

(** [try { body } finally { fin }]: the finaliser runs after a return and
    after a throw, and what it throws replaces the pending completion;
    [process.exit] and a wait that never ends leave no room for it. *)
Definition try_finally {A} (body : M A) (fin : M unit) : M A :=
  fun w =>
    match body w with
    | (Ret a, w1) =>
        match fin w1 with
        | (Ret _, w2) => (Ret a, w2)
        | (Throw e, w2) => (Throw e, w2)
        | (Exit c, w2) => (Exit c, w2)
        | (Blocked, w2) => (Blocked, w2)
        end
    | (Throw e, w1) =>
        match fin w1 with
        | (Ret _, w2) => (Throw e, w2)
        | (Throw e', w2) => (Throw e', w2)
        | (Exit c, w2) => (Exit c, w2)
        | (Blocked, w2) => (Blocked, w2)
        end
    | (Exit c, w1) => (Exit c, w1)
    | (Blocked, w1) => (Blocked, w1)
    end.

(** [await] on a promise. *)
Definition await {A} (p : Settled A) : M A :=
  match p with
  | Fulfilled a => ret a
  | Rejected e => throw e
  | Pending => fun w => (Blocked, w)
  end.

(** [Rx.firstValueFrom] on a stream without operators. *)
Definition firstValueFrom {A} (s : Stream A) : Settled A :=
  match events s with
  | (_, a) :: _ => Fulfilled a
  | [] =>
      match ending s with
      | StillOpen => Pending
      | Completed => Rejected EmptyError
      | Failed e => Rejected e
      end
  end.

Definition console_log (line : string) : M unit := act (EvStdout line).
Definition console_error (line : string) : M unit := act (EvStderr line).
Definition logger_call (c : LogCall) : M unit := act (EvLog c).
Definition logger_info (m : string) : M unit := logger_call (info m).

Fixpoint logger_calls (cs : list LogCall) : M unit :=
  match cs with
  | [] => ret tt
  | c :: rest => logger_call c ;;; logger_calls rest
  end.

(** ** [config.ts] *)

Definition setNetworkId (id : NetworkId) : M unit :=
  fun w => (Ret tt, emit (EvSetNetworkId id) (with_networkId id w)).

(** [getZswapNetworkId()]: the identifier currently set, as the ledger's
    enumeration names it. *)
Definition getZswapNetworkId : M NetworkId :=
  fun w => (Ret (networkId w), w).

(** [new StandaloneConfig()]. *)
Definition StandaloneConfig : M Config :=
  setNetworkId Undeployed ;;;
  ret {| indexer := "http://127.0.0.1:8088/api/v1/graphql";
         indexerWS := "ws://127.0.0.1:8088/api/v1/graphql/ws";
         node := "http://127.0.0.1:9944";
         proofServer := "http://127.0.0.1:6300" |}.

(** [new TestnetRemoteConfig()]. *)
Definition TestnetRemoteConfig : M Config :=
  setNetworkId TestNet ;;;
  ret {| indexer := "https://indexer.testnet-02.midnight.network/api/v1/graphql";
         indexerWS := "wss://indexer.testnet-02.midnight.network/api/v1/graphql/ws";
         node := "https://rpc.testnet-02.midnight.network";
         proofServer := "http://127.0.0.1:6300" |}.

(** ** [commons.ts] *)

Definition GENESIS_MINT_WALLET_SEED : string :=
  "0000000000000000000000000000000000000000000000000000000000000001".

Record TestConfiguration := mkTestConfiguration {
  seed : string;
  entrypoint : string;
  dappConfig : Config;
  psMode : string;
}.

(** [new LocalTestConfig()]: the [dappConfig] initialiser constructs a
    [StandaloneConfig]. *)
Definition LocalTestConfig : M TestConfiguration :=
  cfg <- StandaloneConfig ;;
  ret {| seed := GENESIS_MINT_WALLET_SEED;
         entrypoint := "dist/standalone.js";
         dappConfig := cfg;
         psMode := "undeployed" |}.

(** [toHex] of [@midnight-ntwrk/midnight-js-utils]: two lower-case
    hexadecimal digits per byte. *)
Definition hex_digit (n : N) : ascii :=
  match n with
  | 0%N => "0" | 1%N => "1" | 2%N => "2" | 3%N => "3"
  | 4%N => "4" | 5%N => "5" | 6%N => "6" | 7%N => "7"
  | 8%N => "8" | 9%N => "9" | 10%N => "a" | 11%N => "b"
  | 12%N => "c" | 13%N => "d" | 14%N => "e" | _ => "f"
  end%char.

Definition hex_of_byte (b : byte) : string :=
  let n := Byte.to_N b in
  String (hex_digit (n / 16)) (String (hex_digit (n mod 16)) EmptyString).

Fixpoint toHex (bytes : list byte) : string :=
  match bytes with
  | [] => ""
  | b :: rest => hex_of_byte b +:+ toHex rest
  end.

Definition is_hex_digit (c : ascii) : bool :=
  let n := N_of_ascii c in
  ((48 <=? n) && (n <=? 57) || (97 <=? n) && (n <=? 102))%N.

Section TestWallet.

Variable sdk : Sdk.

(** [randomBytes(length)]: a fresh array of [length] bytes, each taken
    from the system's random source. *)
Definition randomBytes (len : nat) : M (list byte) :=
  fun w =>
    (Ret (map (getRandomValues sdk) (seq (drawn w) len)),
     with_drawn (drawn w + len)%nat w).

Definition WalletBuilder_buildFromSeed (args : BuildArgs) : M WalletHandle :=
  fun w =>
    match buildFromSeed sdk args with
    | inl e => (Throw e, emit (EvBuild args) w)
    | inr h => (Ret h, emit (EvBuild args) w)
    end.

Definition wallet_start (h : WalletHandle) : M unit :=
  fun w =>
    match w_start h with
    | Some e => (Throw e, emit (EvStart (wallet_id h)) w)
    | None => (Ret tt, emit (EvStart (wallet_id h)) w)
    end.

(** [wallet.state()]: one more subscription source of this handle. *)
Definition wallet_state (h : WalletHandle) : M (Stream WalletState) :=
  fun w => (Ret (next_subscription h w), emit (EvState (wallet_id h)) w).

Definition wallet_close (h : WalletHandle) : M unit :=
  fun w =>
    match w_close h with
    | Some e => (Throw e, emit (EvClose (wallet_id h)) w)
    | None => (Ret tt, emit (EvClose (wallet_id h)) w)
    end.

(** [TestWallet.waitForFunds] as [await]ed by its caller. *)
Definition await_waitForFunds (h : WalletHandle) : M N :=
  states <- wallet_state h ;;
  let (p, out) := waitForFunds (nativeToken sdk) states in
  logger_calls out ;;;
  await p.

Definition buildWalletAndWaitForFunds (config : Config) (seed : string)
  : M WalletHandle :=
  nid <- getZswapNetworkId ;;
  wallet <- WalletBuilder_buildFromSeed
              (mkBuildArgs (indexer config) (indexerWS config)
                           (proofServer config) (node config) seed nid
                           "warn") ;;
  wallet_start wallet ;;;
  states <- wallet_state wallet ;;
  state <- await (firstValueFrom states) ;;
  logger_info ("Wallet seed is: " +:+ seed) ;;;
  logger_info ("Wallet address is: " +:+ address state) ;;;
  balance <-
    match balances state !! nativeToken sdk with
    | None | Some 0%N =>
        logger_info "Wallet balance is: 0" ;;;
        logger_info "Waiting to receive tokens..." ;;;
        await_waitForFunds wallet
    | Some b => ret b
    end ;;
  logger_info ("Wallet balance is: " +:+ show_N balance) ;;;
  ret wallet.

Definition buildFreshWallet (config : Config) : M (WalletHandle * string) :=
  bytes <- randomBytes 32 ;;
  let seed := toHex bytes in
  nid <- getZswapNetworkId ;;
  wallet <- WalletBuilder_buildFromSeed
              (mkBuildArgs (indexer config) (indexerWS config)
                           (proofServer config) (node config) seed nid
                           "warn") ;;
  wallet_start wallet ;;;
  states <- wallet_state wallet ;;
  state <- await (firstValueFrom states) ;;
  logger_info ("Wallet seed is: " +:+ seed) ;;;
  logger_info ("Wallet address is: " +:+ address state) ;;;
  let balance := balance_or_zero (nativeToken sdk) state in
  logger_info ("Wallet balance is: " +:+ show_N balance) ;;;
  ret (wallet, seed).

Definition buildWalletFromSeed (config : Config) (seed : string)
  : M WalletHandle :=
  nid <- getZswapNetworkId ;;
  wallet <- WalletBuilder_buildFromSeed
              (mkBuildArgs (indexer config) (indexerWS config)
                           (proofServer config) (node config) seed nid
                           "warn") ;;
  wallet_start wallet ;;;
  states <- wallet_state wallet ;;
  state <- await (firstValueFrom states) ;;
  logger_info ("Wallet seed is: " +:+ seed) ;;;
  logger_info ("Wallet address is: " +:+ address state) ;;;
  let balance := balance_or_zero (nativeToken sdk) state in
  logger_info ("Wallet balance is: " +:+ show_N balance) ;;;
  ret wallet.

(** [TestWallet.setup]. *)
Definition setup (testConfiguration : TestConfiguration) : M WalletHandle :=
  logger_info "Setting up wallet" ;;;
  wallet <- buildWalletAndWaitForFunds (dappConfig testConfiguration)
                                       (seed testConfiguration) ;;
  (fun w => (Ret wallet, with_this_wallet wallet w)).

End TestWallet.

(** ** The [create-wallet] entry point *)

(** [type NetworkType = 'standalone' | 'testnet']. *)
Inductive NetworkType := standalone | testnet.

Definition network_name (n : NetworkType) : string :=
  match n with
  | standalone => "standalone"
  | testnet => "testnet"
  end.

(** [!network] for the third element of [process.argv]: true when it is
    absent and when it is the empty string. *)
Definition not_given (network : option string) : bool :=
  match network with
  | None => true
  | Some s => String.eqb s ""
  end.

Definition getNetworkFromArgs (argv : list string) : M NetworkType :=
  let network := argv !! 2%nat in
  if not_given network then
    console_log "Usage: yarn create-wallet <network>" ;;;
    console_log "  network: standalone | testnet" ;;;
    console_log "" ;;;
    console_log "Examples:" ;;;
    console_log "  yarn create-wallet standalone  # Create wallet for local development" ;;;
    console_log "  yarn create-wallet testnet     # Create wallet for TestNet" ;;;
    process_exit 1
  else
    let name := default "" network in
    if String.eqb name "standalone" then ret standalone
    else if String.eqb name "testnet" then ret testnet
    else
      console_error ("Invalid network: " +:+ name) ;;;
      console_error "Valid options: standalone, testnet" ;;;
      process_exit 1.

Definition getConfigForNetwork (network : NetworkType) : M Config :=
  match network with
  | standalone => StandaloneConfig
  | testnet => TestnetRemoteConfig
  end.

(** ['='.repeat(n)]. *)
Fixpoint repeat_string (s : string) (n : nat) : string :=
  match n with
  | O => ""
  | S k => s +:+ repeat_string s k
  end.

(** How an error shows on the console. *)
Definition show_Error (e : Error) : string :=
  match e with
  | EmptyError => "EmptyError: no elements in sequence"
  | SdkError m => "Error: " +:+ m
  end.

Section Cli.

Variable sdk : Sdk.

(** [main]. [createLogger()] and [new TestWallet(logger)] only build
    objects; the local [wallet] starts as [null]. *)
Definition main (argv : list string) : M unit :=
  network <- getNetworkFromArgs argv ;;
  config <- getConfigForNetwork network ;;
  logger_call (mkLogCall Info (BindNetwork (network_name network))
                         "Creating new wallet") ;;;
  (fun w => (Ret tt, with_main_wallet None w)) ;;;
  try_finally
    (try_catch
       (result <- buildFreshWallet sdk config ;;
        (fun w => (Ret tt, with_main_wallet (Some (fst result)) w)) ;;;
        console_log "" ;;;
        console_log (repeat_string "=" 60) ;;;
        console_log "  NEW WALLET CREATED" ;;;
        console_log (repeat_string "=" 60) ;;;
        console_log "" ;;;
        console_log ("  Network: " +:+ network_name network) ;;;
        console_log ("  Seed: " +:+ snd result) ;;;
        console_log "" ;;;
        console_log "  ⚠️  IMPORTANT: Save your seed securely!" ;;;
        console_log "  You will need it to restore your wallet." ;;;
        console_log "" ;;;
        console_log (repeat_string "=" 60))
       (fun err =>
          logger_call (mkLogCall LvlError (BindErr err)
                                 "Error while creating wallet") ;;;
          (fun w => (Ret tt, with_exitCode 1 w))))
    (fun w =>
       match main_wallet w with
       | Some wallet =>
           try_catch
             (wallet_close wallet ;;;
              logger_info "Wallet closed")
             (fun closeErr =>
                logger_call (mkLogCall Warn (BindCloseErr closeErr)
                                       "Failed to close wallet cleanly"))
             w
       | None => (Ret tt, w)
       end).

(** [main().catch(...)], and the exit status once [main] has settled: the
    status [process.exit] was called with, or [process.exitCode] (0 when
    unset) after [main] returned, which is the status the process ends
    with when nothing keeps it alive; [None] while [main] has not
    settled. *)
Definition run (argv : list string) (w : World) : option Z * World :=
  match main argv w with
  | (Ret _, w1) => (Some (default 0 (exitCode w1)), w1)
  | (Throw err, w1) =>
      (Some 1,
       emit (EvStderr ("Unhandled error in main: " +:+ show_Error err)) w1)
  | (Exit c, w1) => (Some c, w1)
  | (Blocked, w1) => (None, w1)
  end.

End Cli.

(** ** Reading the pipe stage by stage *)

Section FundWaitStages.

Variable nt : string.

(** A snapshot that lets the protocol complete. *)
Definition ready (state : WalletState) : bool :=
  is_synced state && is_positive (balance_or_zero nt state).

(** [Rx.throttleTime(10_000)] alone, on a whole stream: the snapshots it
    lets through. *)
Fixpoint throttleTime (th : Throttle) (evs : list (Z * WalletState))
  : list (Z * WalletState) :=
  match evs with
  | [] => []
  | (t, state) :: rest =>
      if throttle_passes th t
      then (t, state) :: throttleTime (throttle_start t) rest
      else throttleTime th rest
  end.

(** The balance of the first snapshot behind the throttle that is synced
    and funded. *)
Definition first_evaluated_ready (th : Throttle)
           (evs : list (Z * WalletState)) : option N :=
  match List.find (fun ev => ready (snd ev)) (throttleTime th evs) with
  | Some ev => Some (balance_or_zero nt (snd ev))
  | None => None
  end.

(** The balance of the first snapshot of the stream itself that is synced
    and funded: the reading that takes no account of the throttle. *)
Definition spec_first_ready (evs : list (Z * WalletState)) : option N :=
  match List.find (fun ev => ready (snd ev)) evs with
  | Some ev => Some (balance_or_zero nt (snd ev))
  | None => None
  end.

End FundWaitStages.

(** ** What the entry point is expected to select and print *)

(** The endpoints and the identifier that belong to a network name. *)
Definition endpoints_of (net : NetworkType) : Config :=
  match net with
  | standalone =>
      mkConfig "http://127.0.0.1:8088/api/v1/graphql"
               "ws://127.0.0.1:8088/api/v1/graphql/ws"
               "http://127.0.0.1:9944"
               "http://127.0.0.1:6300"
  | testnet =>
      mkConfig "https://indexer.testnet-02.midnight.network/api/v1/graphql"
               "wss://indexer.testnet-02.midnight.network/api/v1/graphql/ws"
               "https://rpc.testnet-02.midnight.network"
               "http://127.0.0.1:6300"
  end.

Definition id_of (net : NetworkType) : NetworkId :=
  match net with
  | standalone => Undeployed
  | testnet => TestNet
  end.

(** The world in which [main] calls [buildFreshWallet]: the configuration
    is selected, the first log line is out and [wallet] is [null]. *)
Definition before_build (net : NetworkType) (w : World) : World :=
  with_main_wallet None
    (emit (EvLog (mkLogCall Info (BindNetwork (network_name net))
                            "Creating new wallet"))
       (emit (EvSetNetworkId (id_of net)) (with_networkId (id_of net) w))).

Definition banner_lines (net : NetworkType) (seed : string) : list string :=
  [ "";
    repeat_string "=" 60;
    "  NEW WALLET CREATED";
    repeat_string "=" 60;
    "";
    "  Network: " +:+ network_name net;
    "  Seed: " +:+ seed;
    "";
    "  ⚠️  IMPORTANT: Save your seed securely!";
    "  You will need it to restore your wallet.";
    "";
    repeat_string "=" 60 ].

Definition usage_lines : list string :=
  [ "Usage: yarn create-wallet <network>";
    "  network: standalone | testnet";
    "";
    "Examples:";
    "  yarn create-wallet standalone  # Create wallet for local development";
    "  yarn create-wallet testnet     # Create wallet for TestNet" ].

(** The seed [buildFreshWallet] draws in a world. *)
Definition fresh_seed (sdk : Sdk) (w : World) : string :=
  toHex (map (getRandomValues sdk) (seq (drawn w) 32)).

(** The arguments a builder passes to the SDK in a world. *)
Definition build_args (config : Config) (seed : string) (w : World)
  : BuildArgs :=
  mkBuildArgs (indexer config) (indexerWS config) (proofServer config)
              (node config) seed (networkId w) "warn".

Definition is_set_network (e : Event) : bool :=
  match e with EvSetNetworkId _ => true | _ => false end.

(** Constructing configuration objects one after the other. *)
Inductive ConfigClass := NewStandalone | NewTestnetRemote | NewLocalTest.

Definition construct (c : ConfigClass) : M unit :=
  match c with
  | NewStandalone => StandaloneConfig ;;; ret tt
  | NewTestnetRemote => TestnetRemoteConfig ;;; ret tt
  | NewLocalTest => LocalTestConfig ;;; ret tt
  end.

Fixpoint construct_all (cs : list ConfigClass) : M unit :=
  match cs with
  | [] => ret tt
  | c :: rest => construct c ;;; construct_all rest
  end.

Definition class_id (c : ConfigClass) : NetworkId :=
  match c with
  | NewStandalone => Undeployed
  | NewTestnetRemote => TestNet
  | NewLocalTest => Undeployed
  end.

(** The identifiers written by [setNetworkId], in order. *)
Definition set_ids_of (tr : list Event) : list NetworkId :=
  pick (fun e => match e with EvSetNetworkId i => Some i | _ => None end) tr.

(** The address of every snapshot of a wallet the SDK builds is a function
    of the network identifier and of the seed it was built with. *)
Definition reports_address (sdk : Sdk) (derive : NetworkId -> string -> string)
  : Prop :=
  forall args h n t state,
    buildFromSeed sdk args = inr h ->
    In (t, state) (events (w_state h n)) ->
    address state = derive (arg_networkId args) (arg_seed args).

(** One process that builds a fresh wallet for the standalone
    configuration, constructs the testnet configuration, and rebuilds the
    wallet from the seed with the first configuration. *)
Definition rebuild_after_other_config (sdk : Sdk) : M string :=
  config <- StandaloneConfig ;;
  result <- buildFreshWallet sdk config ;;
  TestnetRemoteConfig ;;;
  buildWalletFromSeed sdk config (snd result) ;;;
  ret (snd result).

(** ** Sample inputs *)

Definition sample_token : string :=
  "02000000000000000000000000000000000000000000000000000000000000000000".

Definition sample_state (sp : option SyncProgress) (funds : option N)
  : WalletState :=
  {| address := "mn_shield-addr_undeployed1sample";
     balances := match funds with
                 | Some b => {[ sample_token := b ]}
                 | None => ∅
                 end;
     syncProgress := sp;
     transactionHistory := [] |}.

Definition in_sync : option SyncProgress :=
  Some (mkSyncProgress (mkLag 0 0) true).

Definition catching_up : option SyncProgress :=
  Some (mkSyncProgress (mkLag 3 12) false).

(** A funded, synced snapshot arrives one second after an unsynced one, and
    a differently funded one twenty seconds in. *)
Definition sample_throttled_events : list (Z * WalletState) :=
  [ (0, sample_state catching_up None);
    (1000, sample_state in_sync (Some 5%N));
    (20000, sample_state in_sync (Some 7%N)) ].

Definition sample_throttled_stream : Stream WalletState :=
  mkStream sample_throttled_events StillOpen.

(** Three snapshots inside one ten-second window. *)
Definition sample_burst : list (Z * WalletState) :=
  [ (500, sample_state None None);
    (4000, sample_state catching_up (Some 2%N));
    (10499, sample_state in_sync (Some 2%N)) ].

(** An SDK for the examples: every wallet builds, starts and closes, its
    address comes from the seed alone, and it is unfunded at first; the
    second subscription sees funds arrive. *)
Definition sample_derive (seed : string) : string :=
  "mn_shield-addr_undeployed1" +:+ seed.

Definition sample_wallet (args : BuildArgs) : WalletHandle :=
  {| wallet_id := 1;
     w_start := None;
     w_state := fun n =>
       match n with
       | O => mkStream [ (0, mkWalletState (sample_derive (arg_seed args))
                                           ∅ in_sync []) ] StillOpen
       | S _ => mkStream [ (0, mkWalletState (sample_derive (arg_seed args))
                                             ∅ catching_up []);
                           (15000, mkWalletState (sample_derive (arg_seed args))
                                                 {[ sample_token := 25%N ]}
                                                 in_sync []) ] StillOpen
       end;
     w_close := None |}.

Definition sample_sdk : Sdk :=
  {| nativeToken := sample_token;
     buildFromSeed := fun args => inr (sample_wallet args);
     getRandomValues := fun i => if Nat.even i then xa7 else x3c |}.

Definition initial_world : World :=
  mkWorld Undeployed None 0 None None [].

Definition sample_argv (network : string) : list string :=
  [ "/usr/bin/node"; "/app/dist/create-wallet.js"; network ].

(** What [new LocalTestConfig()] evaluates to. *)
Definition sample_local_config : TestConfiguration :=
  {| seed := GENESIS_MINT_WALLET_SEED;
     entrypoint := "dist/standalone.js";
     dappConfig := endpoints_of standalone;
     psMode := "undeployed" |}.

(** ** More readings of the pipe and of the seed *)

(** The elements of a list up to and including the first that satisfies
    [p]. *)
Fixpoint upto_first {A} (p : A -> bool) (l : list A) : list A :=
  match l with
  | [] => []
  | x :: rest => if p x then [x] else x :: upto_first p rest
  end.

(** The value of a lower-case hexadecimal digit. *)
Definition hex_value (c : ascii) : N :=
  let n := N_of_ascii c in
  if (n <=? 57)%N then (n - 48)%N else (n - 87)%N.

(** ** More sample inputs *)

Definition sample_error : Error :=
  SdkError "connect ECONNREFUSED 127.0.0.1:8088".

(** A wallet whose every subscription sees the same stream. *)
Definition stub_wallet (start : option Error) (states : Stream WalletState)
           (close : option Error) : WalletHandle :=
  {| wallet_id := 7;
     w_start := start;
     w_state := fun _ => states;
     w_close := close |}.

(** An SDK whose construction call always ends the same way. *)
Definition stub_sdk (built : Error + WalletHandle) : Sdk :=
  {| nativeToken := sample_token;
     buildFromSeed := fun _ => built;
     getRandomValues := fun _ => x00 |}.

Definition funded_stream : Stream WalletState :=
  mkStream [ (0, sample_state in_sync (Some 40%N)) ] StillOpen.

(** An SDK whose addresses carry the network they are encoded for. *)
Definition network_tag (id : NetworkId) : string :=
  match id with
  | Undeployed => "undeployed"
  | DevNet => "dev"
  | TestNet => "test"
  | MainNet => "main"
  end.

Definition encoded_address (id : NetworkId) (seed : string) : string :=
  "mn_shield-addr_" +:+ network_tag id +:+ "1" +:+ seed.

Definition encoding_wallet (args : BuildArgs) : WalletHandle :=
  {| wallet_id := 2;
     w_start := None;
     w_state := fun _ =>
       mkStream [ (0, mkWalletState
                        (encoded_address (arg_networkId args) (arg_seed args))
                        ∅ in_sync []) ] StillOpen;
     w_close := None |}.

Definition encoding_sdk : Sdk :=
  {| nativeToken := sample_token;
     buildFromSeed := fun args => inr (encoding_wallet args);
     getRandomValues := fun _ => x5e |}.

(** * Properties *)

(** ** The fund-wait protocol *)

Section FundWaitFacts.

Variable nt : string.

Lemma fundwait_step_waiting th t state :
  fundwait_step nt (Waiting th) (t, state) =
    if throttle_passes th t then
      if ready nt state then (Resolved (balance_or_zero nt state), [tap_log state])
      else (Waiting (throttle_start t), [tap_log state])
    else (Waiting th, []).
Proof.
  unfold fundwait_step, ready.
  destruct (throttle_passes th t); [|reflexivity].
  destruct (is_synced state); [|reflexivity].
  destruct (is_positive (balance_or_zero nt state)); reflexivity.
Qed.

Lemma fundwait_run_resolved b evs :
  fundwait_run nt (Resolved b) evs = (Resolved b, []).
Proof.
  induction evs as [|ev rest IH]; [reflexivity|].
  cbn [fundwait_run fundwait_step]. rewrite IH. reflexivity.
Qed.

Lemma fundwait_run_app st evs more :
  fundwait_run nt st (evs ++ more) =
    let (st1, out1) := fundwait_run nt st evs in
    let (st2, out2) := fundwait_run nt st1 more in
    (st2, out1 ++ out2).
Proof.
  revert st. induction evs as [|ev rest IH]; intros st.
  - cbn. destruct (fundwait_run nt st more). reflexivity.
  - cbn [app fundwait_run].
    destruct (fundwait_step nt st ev) as [st1 out1].
    rewrite IH.
    destruct (fundwait_run nt st1 rest) as [st2 out2].
    destruct (fundwait_run nt st2 more) as [st3 out3].
    rewrite app_assoc. reflexivity.
Qed.

(** The state machine and the pipe read stage by stage agree. *)
Lemma fundwait_run_first_evaluated th evs :
  match first_evaluated_ready nt th evs with
  | Some b => fst (fundwait_run nt (Waiting th) evs) = Resolved b
  | None => exists th', fst (fundwait_run nt (Waiting th) evs) = Waiting th'
  end.
Proof.
  revert th. induction evs as [|[t state] rest IH]; intros th.
  - cbn. eauto.
  - unfold first_evaluated_ready. cbn [fundwait_run throttleTime].
    rewrite fundwait_step_waiting.
    destruct (throttle_passes th t).
    + cbn [List.find snd]. destruct (ready nt state).
      * rewrite fundwait_run_resolved. reflexivity.
      * specialize (IH (throttle_start t)).
        unfold first_evaluated_ready in IH.
        destruct (fundwait_run nt (Waiting (throttle_start t)) rest).
        exact IH.
    + specialize (IH th). unfold first_evaluated_ready in IH.
      destruct (fundwait_run nt (Waiting th) rest). exact IH.
Qed.

Lemma fundwait_run_resolved_iff th evs b :
  fst (fundwait_run nt (Waiting th) evs) = Resolved b <->
  first_evaluated_ready nt th evs = Some b.
Proof.
  pose proof (fundwait_run_first_evaluated th evs) as H.
  destruct (first_evaluated_ready nt th evs) as [b'|].
  - rewrite H. split; intros E; inversion E; reflexivity.
  - destruct H as [th' H]. rewrite H. split; intros E; discriminate E.
Qed.

Lemma first_evaluated_ready_positive th evs b :
  first_evaluated_ready nt th evs = Some b -> (0 < b)%N.
Proof.
  unfold first_evaluated_ready.
  destruct (List.find _ _) as [ev|] eqn:F; [|discriminate].
  intros E. inversion E; subst b.
  apply find_some in F. destruct F as [_ R].
  unfold ready in R. apply andb_true_iff in R. destruct R as [_ R].
  unfold is_positive in R. apply N.ltb_lt in R. exact R.
Qed.

Lemma waitForFunds_fulfilled_iff (s : Stream WalletState) b :
  fst (waitForFunds nt s) = Fulfilled b <->
  fst (fundwait_run nt (Waiting None) (events s)) = Resolved b.
Proof.
  unfold waitForFunds.
  destruct (fundwait_run nt (Waiting None) (events s)) as [st out].
  destruct st as [th|b']; cbn [fst].
  - destruct (ending s); cbn [fst]; split; intros E; discriminate E.
  - split; intros E; inversion E; reflexivity.
Qed.

Lemma not_ready_no_first_ready th evs :
  Forall (fun ev => ready nt (snd ev) = false) evs ->
  first_evaluated_ready nt th evs = None.
Proof.
  intros HF. unfold first_evaluated_ready.
  destruct (List.find _ _) as [ev|] eqn:F; [|reflexivity].
  apply find_some in F. destruct F as [I R]. exfalso.
  assert (In ev evs) as I'.
  { clear -I. revert th I. induction evs as [|[t state] rest IH]; intros th I.
    - destruct I.
    - cbn [throttleTime] in I. destruct (throttle_passes th t).
      + destruct I as [I|I]; [left; exact I|right; eapply IH; exact I].
      + right. eapply IH; exact I. }
  rewrite List.Forall_forall in HF. specialize (HF ev I').
  cbv beta in HF. rewrite HF in R. discriminate R.
Qed.



Lemma waitForFunds_fulfilled_positive (s : Stream WalletState) b :
  fst (waitForFunds nt s) = Fulfilled b -> (0 < b)%N.
Proof.
  intros Hb. apply waitForFunds_fulfilled_iff in Hb.
  apply fundwait_run_resolved_iff in Hb.
  eapply first_evaluated_ready_positive; exact Hb.
Qed.

End FundWaitFacts.

(** C1, as amended. Over any stream, [waitForFunds] is fulfilled with [b]
    exactly when the first snapshot that the ten-second throttle lets
    through and that is synced with a positive native-token balance (an
    absent entry counting as zero) has balance [b]; that value is positive;
    once fulfilled, nothing that arrives later changes the value or the log
    (the subscription has ended); and a stream whose snapshots are all
    unsynced, or synced with a zero or absent balance, never fulfils it. *)
Theorem waitForFunds_first_evaluated_ready (nt : string) (s : Stream WalletState) :
  (forall b, fst (waitForFunds nt s) = Fulfilled b <->
             first_evaluated_ready nt None (events s) = Some b) /\
  (forall b, fst (waitForFunds nt s) = Fulfilled b ->
             (0 < b)%N /\
             forall more e,
               waitForFunds nt (mkStream (events s ++ more) e) = waitForFunds nt s) /\
  (Forall (fun ev => ready nt (snd ev) = false) (events s) ->
   forall b, fst (waitForFunds nt s) <> Fulfilled b).
Proof.
  split; [|split].
  - intros b. rewrite waitForFunds_fulfilled_iff.
    apply fundwait_run_resolved_iff.
  - intros b Hb. split.
    + apply waitForFunds_fulfilled_iff in Hb.
      apply fundwait_run_resolved_iff in Hb.
      eapply first_evaluated_ready_positive; exact Hb.
    + intros more e. apply waitForFunds_fulfilled_iff in Hb.
      unfold waitForFunds. cbn [events ending].
      rewrite fundwait_run_app.
      destruct (fundwait_run nt (Waiting None) (events s)) as [st out].
      cbn [fst] in Hb. subst st.
      rewrite fundwait_run_resolved. rewrite app_nil_r. reflexivity.
  - intros HF b Hb. apply waitForFunds_fulfilled_iff in Hb.
    apply fundwait_run_resolved_iff in Hb.
    rewrite (not_ready_no_first_ready nt None _ HF) in Hb. discriminate Hb.
Qed.

Lemma waitForFunds_first_evaluated_ready_witness :
  fst (waitForFunds sample_token sample_throttled_stream) = Fulfilled 7%N /\
  (0 < 7)%N.
Proof.
  pose proof (waitForFunds_first_evaluated_ready sample_token
                sample_throttled_stream) as [Hiff [Hpos _]].
  assert (fst (waitForFunds sample_token sample_throttled_stream)
          = Fulfilled 7%N) as E.
  { apply Hiff. vm_compute. reflexivity. }
  split; [exact E|]. apply (Hpos 7%N E).
Defined.

(** C1 as stated fails: the first synced and funded snapshot of the stream
    holds 5, it arrives inside the throttle window opened by the unsynced
    snapshot before it, and the protocol resolves with 7. *)
Lemma waitForFunds_skips_throttled_ready :
  spec_first_ready sample_token (events sample_throttled_stream) = Some 5%N /\
  fst (waitForFunds sample_token sample_throttled_stream) <> Fulfilled 5%N /\
  fst (waitForFunds sample_token sample_throttled_stream) = Fulfilled 7%N.
Proof.
  split; [vm_compute; reflexivity|].
  split; [vm_compute; intros E; discriminate E|vm_compute; reflexivity].
Qed.



(** ** Worlds up to the events they add *)

Lemma emit_is_emit_all e w : emit e w = emit_all [e] w.
Proof. reflexivity. Qed.

Lemma emit_all_emit_all es1 es2 w :
  emit_all es2 (emit_all es1 w) = emit_all (es1 ++ es2) w.
Proof. unfold emit_all. cbn. rewrite <- app_assoc. reflexivity. Qed.

Lemma with_exitCode_emit_all c es w :
  with_exitCode c (emit_all es w) = emit_all es (with_exitCode c w).
Proof. reflexivity. Qed.

Lemma with_main_wallet_emit_all h es w :
  with_main_wallet h (emit_all es w) = emit_all es (with_main_wallet h w).
Proof. reflexivity. Qed.

Lemma with_this_wallet_emit_all h es w :
  with_this_wallet h (emit_all es w) = emit_all es (with_this_wallet h w).
Proof. reflexivity. Qed.

Lemma with_networkId_emit_all id es w :
  with_networkId id (emit_all es w) = emit_all es (with_networkId id w).
Proof. reflexivity. Qed.

Lemma with_drawn_emit_all n es w :
  with_drawn n (emit_all es w) = emit_all es (with_drawn n w).
Proof. reflexivity. Qed.

Lemma trace_emit_all es w : trace (emit_all es w) = trace w ++ es.
Proof. reflexivity. Qed.

Lemma pick_app {A} (f : Event -> option A) l1 l2 :
  pick f (l1 ++ l2) = pick f l1 ++ pick f l2.
Proof.
  induction l1 as [|e l1 IH]; [reflexivity|].
  cbn [app pick]. destruct (f e); rewrite IH; reflexivity.
Qed.

Lemma since_emit_all_from w w0 pre es :
  trace w0 = trace w ++ pre -> since w (emit_all es w0) = pre ++ es.
Proof.
  intros E. unfold since. rewrite trace_emit_all, E, <- app_assoc.
  apply drop_app_length.
Qed.

Lemma since_emit_all w w0 es :
  trace w0 = trace w -> since w (emit_all es w0) = es.
Proof.
  intros E. unfold since. rewrite trace_emit_all, E. apply drop_app_length.
Qed.

(** Bring a world to the form [emit_all es w0] with [w0] free of events. *)
Ltac world_norm :=
  unfold before_build, banner_lines, usage_lines;
  repeat rewrite emit_is_emit_all;
  repeat first
    [ rewrite emit_all_emit_all
    | rewrite with_exitCode_emit_all
    | rewrite with_main_wallet_emit_all
    | rewrite with_this_wallet_emit_all
    | rewrite with_networkId_emit_all
    | rewrite with_drawn_emit_all ];
  cbn [app map].

Ltac world_eq := world_norm; reflexivity.

Ltac since_trace := world_norm; apply since_emit_all; reflexivity.

Section BuilderFacts.

Variable sdk : Sdk.

Lemma trace_emit e w : trace (emit e w) = trace w ++ [e].
Proof. reflexivity. Qed.

Lemma since_app w w' l : trace w' = trace w ++ l -> since w w' = l.
Proof. intros E. unfold since. rewrite E. apply drop_app_length. Qed.

Lemma buildFreshWallet_eq (config : Config) (w : World) :
  let seed := toHex (map (getRandomValues sdk) (seq (drawn w) 32)) in
  let args := mkBuildArgs (indexer config) (indexerWS config)
                          (proofServer config) (node config) seed
                          (networkId w) "warn" in
  let w1 := emit (EvBuild args) (with_drawn (drawn w + 32)%nat w) in
  buildFreshWallet sdk config w =
    match buildFromSeed sdk args with
    | inl e => (Throw e, w1)
    | inr h =>
        let w2 := emit (EvStart (wallet_id h)) w1 in
        match w_start h with
        | Some e => (Throw e, w2)
        | None =>
            let w3 := emit (EvState (wallet_id h)) w2 in
            match firstValueFrom (next_subscription h w2) with
            | Rejected e => (Throw e, w3)
            | Pending => (Blocked, w3)
            | Fulfilled state =>
                (Ret (h, seed),
                 emit (EvLog (info ("Wallet balance is: "
                                    +:+ show_N (balance_or_zero (nativeToken sdk) state))))
                   (emit (EvLog (info ("Wallet address is: " +:+ address state)))
                      (emit (EvLog (info ("Wallet seed is: " +:+ seed))) w3)))
            end
        end
    end.
Proof.
  intros seed args w1.
  unfold buildFreshWallet, bind, randomBytes, getZswapNetworkId,
    WalletBuilder_buildFromSeed.
  cbn [networkId with_drawn].
  fold seed. fold args.
  destruct (buildFromSeed sdk args) as [e|h]; [reflexivity|].
  unfold wallet_start. destruct (w_start h) as [e|]; [reflexivity|].
  unfold wallet_state.
  destruct (firstValueFrom _) as [state|e|]; reflexivity.
Qed.

Lemma emit_all_nil w : emit_all [] w = w.
Proof. destruct w. unfold emit_all. cbn. rewrite app_nil_r. reflexivity. Qed.

Lemma emit_emit_all e es w : emit_all es (emit e w) = emit_all (e :: es) w.
Proof. unfold emit_all, emit. cbn. rewrite <- app_assoc. reflexivity. Qed.

Lemma logger_calls_eq cs w :
  logger_calls cs w = (Ret tt, emit_all (map EvLog cs) w).
Proof.
  revert w. induction cs as [|c rest IH]; intros w.
  - cbn. rewrite emit_all_nil. reflexivity.
  - cbn [logger_calls map]. unfold bind, logger_call, act.
    rewrite IH. rewrite emit_emit_all. reflexivity.
Qed.

Lemma next_subscription_emit h e w :
  is_state_of (wallet_id h) e = false ->
  next_subscription h (emit e w) = next_subscription h w.
Proof.
  intros He. unfold next_subscription, count_events. cbn [trace emit].
  rewrite List.filter_app. cbn [List.filter]. rewrite He.
  rewrite app_nil_r. reflexivity.
Qed.

Lemma buildWalletAndWaitForFunds_eq (config : Config) (seed : string) (w : World) :
  let args := mkBuildArgs (indexer config) (indexerWS config)
                          (proofServer config) (node config) seed
                          (networkId w) "warn" in
  let w1 := emit (EvBuild args) w in
  buildWalletAndWaitForFunds sdk config seed w =
    match buildFromSeed sdk args with
    | inl e => (Throw e, w1)
    | inr h =>
        let w2 := emit (EvStart (wallet_id h)) w1 in
        match w_start h with
        | Some e => (Throw e, w2)
        | None =>
            let w3 := emit (EvState (wallet_id h)) w2 in
            match firstValueFrom (next_subscription h w2) with
            | Rejected e => (Throw e, w3)
            | Pending => (Blocked, w3)
            | Fulfilled state =>
                let w5 :=
                  emit (EvLog (info ("Wallet address is: " +:+ address state)))
                    (emit (EvLog (info ("Wallet seed is: " +:+ seed))) w3) in
                let waited :=
                  let w7 :=
                    emit (EvLog (info "Waiting to receive tokens..."))
                      (emit (EvLog (info "Wallet balance is: 0")) w5) in
                  let w8 := emit (EvState (wallet_id h)) w7 in
                  let p := waitForFunds (nativeToken sdk) (next_subscription h w7) in
                  let w9 := emit_all (map EvLog (snd p)) w8 in
                  match fst p with
                  | Fulfilled b =>
                      (Ret h, emit (EvLog (info ("Wallet balance is: " +:+ show_N b))) w9)
                  | Rejected e => (Throw e, w9)
                  | Pending => (Blocked, w9)
                  end in
                match balances state !! nativeToken sdk with
                | None => waited
                | Some b =>
                    if (b =? 0)%N then waited
                    else (Ret h, emit (EvLog (info ("Wallet balance is: " +:+ show_N b))) w5)
                end
            end
        end
    end.
Proof.
  intros args w1.
  unfold buildWalletAndWaitForFunds, bind, getZswapNetworkId,
    WalletBuilder_buildFromSeed.
  fold args.
  destruct (buildFromSeed sdk args) as [e|h]; [reflexivity|].
  unfold wallet_start. destruct (w_start h) as [e|]; [reflexivity|].
  unfold wallet_state.
  destruct (firstValueFrom _) as [state|e|]; [|reflexivity|reflexivity].
  unfold await, ret. cbv beta iota zeta.
  destruct (balances state !! nativeToken sdk) as [[|b]|]; cbn [N.eqb].
  - unfold logger_info, logger_call, act, await_waitForFunds, wallet_state, bind.
    cbv beta iota zeta.
    destruct (waitForFunds _ _) as [p out]. cbv beta iota.
    rewrite logger_calls_eq. cbn [fst snd].
    destruct p; reflexivity.
  - reflexivity.
  - unfold logger_info, logger_call, act, await_waitForFunds, wallet_state, bind.
    cbv beta iota zeta.
    destruct (waitForFunds _ _) as [p out]. cbv beta iota.
    rewrite logger_calls_eq. cbn [fst snd].
    destruct p; reflexivity.
Qed.

Lemma buildWalletFromSeed_eq (config : Config) (seed : string) (w : World) :
  let args := mkBuildArgs (indexer config) (indexerWS config)
                          (proofServer config) (node config) seed
                          (networkId w) "warn" in
  let w1 := emit (EvBuild args) w in
  buildWalletFromSeed sdk config seed w =
    match buildFromSeed sdk args with
    | inl e => (Throw e, w1)
    | inr h =>
        let w2 := emit (EvStart (wallet_id h)) w1 in
        match w_start h with
        | Some e => (Throw e, w2)
        | None =>
            let w3 := emit (EvState (wallet_id h)) w2 in
            match firstValueFrom (next_subscription h w2) with
            | Rejected e => (Throw e, w3)
            | Pending => (Blocked, w3)
            | Fulfilled state =>
                (Ret h,
                 emit (EvLog (info ("Wallet balance is: "
                                    +:+ show_N (balance_or_zero (nativeToken sdk) state))))
                   (emit (EvLog (info ("Wallet address is: " +:+ address state)))
                      (emit (EvLog (info ("Wallet seed is: " +:+ seed))) w3)))
            end
        end
    end.
Proof.
  intros args w1.
  unfold buildWalletFromSeed, bind, getZswapNetworkId,
    WalletBuilder_buildFromSeed.
  fold args.
  destruct (buildFromSeed sdk args) as [e|h]; [reflexivity|].
  unfold wallet_start. destruct (w_start h) as [e|]; [reflexivity|].
  unfold wallet_state.
  destruct (firstValueFrom _) as [state|e|]; reflexivity.
Qed.

End BuilderFacts.


(** ** The entry point *)

Section CliFacts.

Variable sdk : Sdk.

Lemma buildFreshWallet_frame (config : Config) (w : World) :
  let r := buildFreshWallet sdk config w in
  main_wallet (snd r) = main_wallet w /\
  exitCode (snd r) = exitCode w /\
  networkId (snd r) = networkId w /\
  this_wallet (snd r) = this_wallet w /\
  (forall c, fst r <> Exit c) /\
  exists evs,
    trace (snd r) =
      trace w ++ EvBuild (build_args config (fresh_seed sdk w) w) :: evs /\
    stdout_of evs = [] /\ stderr_of evs = [] /\ builds_of evs = [] /\
    List.filter is_close evs = [] /\ List.filter is_set_network evs = [].
Proof.
  cbv zeta. rewrite buildFreshWallet_eq. cbv zeta.
  change (toHex (map (getRandomValues sdk) (seq (drawn w) 32)))
    with (fresh_seed sdk w).
  change (mkBuildArgs (indexer config) (indexerWS config) (proofServer config)
            (node config) (fresh_seed sdk w) (networkId w) "warn")
    with (build_args config (fresh_seed sdk w) w).
  destruct (buildFromSeed sdk _) as [e|h].
  { repeat split; try discriminate. exists []. repeat split. }
  destruct (w_start h) as [e|].
  { repeat split; try discriminate. eexists. split; [world_eq|].
    repeat split. }
  destruct (firstValueFrom _) as [state|e|].
  - repeat split; try discriminate. eexists. split; [world_eq|].
    repeat split.
  - repeat split; try discriminate. eexists. split; [world_eq|].
    repeat split.
  - repeat split; try discriminate. eexists. split; [world_eq|].
    repeat split.
Qed.

Lemma getNetworkFromArgs_valid (net : NetworkType) (argv : list string) (w : World) :
  argv !! 2%nat = Some (network_name net) ->
  getNetworkFromArgs argv w = (Ret net, w).
Proof.
  intros H. unfold getNetworkFromArgs. rewrite H.
  destruct net; reflexivity.
Qed.

Lemma getConfigForNetwork_eq (net : NetworkType) (w : World) :
  getConfigForNetwork net w =
    (Ret (endpoints_of net),
     emit (EvSetNetworkId (id_of net)) (with_networkId (id_of net) w)).
Proof. destruct net; reflexivity. Qed.

Lemma main_eq (net : NetworkType) (argv : list string) (w : World) :
  argv !! 2%nat = Some (network_name net) ->
  main sdk argv w =
    match buildFreshWallet sdk (endpoints_of net) (before_build net w) with
    | (Ret (h, seed), w1) =>
        (Ret tt,
         emit (EvLog match w_close h with
                     | None => info "Wallet closed"
                     | Some e => mkLogCall Warn (BindCloseErr e)
                                           "Failed to close wallet cleanly"
                     end)
           (emit (EvClose (wallet_id h))
              (emit_all (map EvStdout (banner_lines net seed))
                 (with_main_wallet (Some h) w1))))
    | (Throw e, w1) =>
        (Ret tt,
         with_exitCode 1
           (emit (EvLog (mkLogCall LvlError (BindErr e)
                                   "Error while creating wallet")) w1))
    | (Exit c, w1) => (Exit c, w1)
    | (Blocked, w1) => (Blocked, w1)
    end.
Proof.
  intros H. unfold main.
  unfold bind at 1. rewrite (getNetworkFromArgs_valid net argv w H).
  unfold bind at 1. rewrite getConfigForNetwork_eq.
  unfold bind at 1. unfold logger_call at 1, act at 1.
  unfold bind at 1.
  change (with_main_wallet None
            (emit (EvLog (mkLogCall Info (BindNetwork (network_name net))
                                    "Creating new wallet"))
               (emit (EvSetNetworkId (id_of net))
                  (with_networkId (id_of net) w))))
    with (before_build net w).
  pose proof (buildFreshWallet_frame (endpoints_of net) (before_build net w))
    as (Hmw & _ & _ & _ & _ & _).
  unfold try_finally, try_catch. unfold bind at 1.
  destruct (buildFreshWallet sdk (endpoints_of net) (before_build net w))
    as [[[h seed]|e|c|] w1].
  - unfold bind, console_log, logger_info, logger_call, act, wallet_close.
    cbn [fst snd main_wallet with_main_wallet emit].
    destruct (w_close h) as [e|]; cbv beta iota; f_equal; world_eq.
  - cbn [snd] in Hmw.
    unfold bind, logger_call, act.
    cbn [main_wallet with_exitCode emit]. rewrite Hmw.
    reflexivity.
  - reflexivity.
  - reflexivity.
Qed.

End CliFacts.

(** C2. For a valid network argument the selector returns the variant's
    four fixed endpoints, whatever the state of the process, and sets the
    process-wide identifier to the variant's; in a run of the entry point
    that write is the first thing that happens, the identifier is not
    written again, the only wallet construction call of the run comes after
    it and is given these endpoints and this identifier, and the identifier
    still holds when the run ends. *)
Theorem getConfigForNetwork_selects_and_sets
  (sdk : Sdk) (net : NetworkType) (argv : list string) (w : World) :
  argv !! 2%nat = Some (network_name net) ->
  let config :=
    match net with
    | standalone =>
        mkConfig "http://127.0.0.1:8088/api/v1/graphql"
                 "ws://127.0.0.1:8088/api/v1/graphql/ws"
                 "http://127.0.0.1:9944"
                 "http://127.0.0.1:6300"
    | testnet =>
        mkConfig "https://indexer.testnet-02.midnight.network/api/v1/graphql"
                 "wss://indexer.testnet-02.midnight.network/api/v1/graphql/ws"
                 "https://rpc.testnet-02.midnight.network"
                 "http://127.0.0.1:6300"
    end in
  let id := match net with standalone => Undeployed | testnet => TestNet end in
  getNetworkFromArgs argv w = (Ret net, w) /\
  fst (getConfigForNetwork net w) = Ret config /\
  networkId (snd (getConfigForNetwork net w)) = id /\
  (exists rest,
      since w (snd (run sdk argv w)) = EvSetNetworkId id :: rest /\
      List.filter is_set_network rest = [] /\
      builds_of rest =
        [ mkBuildArgs (indexer config) (indexerWS config) (proofServer config)
                      (node config) (fresh_seed sdk w) id "warn" ]) /\
  networkId (snd (run sdk argv w)) = id.
Proof.
  intros H config id.
  assert (config = endpoints_of net) as -> by (destruct net; reflexivity).
  assert (id = id_of net) as -> by (destruct net; reflexivity).
  split; [apply getNetworkFromArgs_valid; exact H|].
  rewrite getConfigForNetwork_eq.
  split; [reflexivity|]. split; [reflexivity|].
  unfold run. rewrite (main_eq sdk net argv w H).
  rewrite buildFreshWallet_eq. cbv zeta.
  change (toHex (map (getRandomValues sdk) (seq (drawn (before_build net w)) 32)))
    with (fresh_seed sdk w).
  change (networkId (before_build net w)) with (id_of net).
  destruct (buildFromSeed sdk _) as [e|h].
  { split; [|reflexivity]. eexists. split; [since_trace|].
    split; reflexivity. }
  destruct (w_start h) as [e|].
  { split; [|reflexivity]. eexists. split; [since_trace|].
    split; reflexivity. }
  destruct (firstValueFrom _) as [state|e|].
  - split; [|reflexivity]. eexists. split; [since_trace|].
    split; reflexivity.
  - split; [|reflexivity]. eexists. split; [since_trace|].
    split; reflexivity.
  - split; [|reflexivity]. eexists. split; [since_trace|].
    split; reflexivity.
Qed.

Lemma getConfigForNetwork_selects_and_sets_witness :
  fst (getConfigForNetwork testnet initial_world) =
    Ret (mkConfig "https://indexer.testnet-02.midnight.network/api/v1/graphql"
                  "wss://indexer.testnet-02.midnight.network/api/v1/graphql/ws"
                  "https://rpc.testnet-02.midnight.network"
                  "http://127.0.0.1:6300") /\
  networkId (snd (run sample_sdk (sample_argv "testnet") initial_world)) = TestNet.
Proof.
  pose proof (getConfigForNetwork_selects_and_sets sample_sdk testnet
                (sample_argv "testnet") initial_world eq_refl)
    as (_ & Hcfg & _ & _ & Hid).
  split; [exact Hcfg|exact Hid].
Defined.

Lemma main_usage (sdk : Sdk) (argv : list string) (w : World) :
  argv !! 2%nat = None \/ argv !! 2%nat = Some "" ->
  main sdk argv w = (Exit 1, emit_all (map EvStdout usage_lines) w).
Proof.
  intros [H|H]; unfold main, getNetworkFromArgs; rewrite H;
    cbn [not_given String.eqb];
    unfold bind, console_log, act, process_exit; cbv beta iota;
    f_equal; world_eq.
Qed.

Lemma main_invalid (sdk : Sdk) (argv : list string) (name : string) (w : World) :
  argv !! 2%nat = Some name ->
  name <> "" -> name <> "standalone" -> name <> "testnet" ->
  main sdk argv w =
    (Exit 1,
     emit_all [ EvStderr ("Invalid network: " +:+ name);
                EvStderr "Valid options: standalone, testnet" ] w).
Proof.
  intros H Hne Hs Ht. unfold main, getNetworkFromArgs. rewrite H.
  cbn [not_given from_option id].
  apply String.eqb_neq in Hne, Hs, Ht. rewrite Hne, Hs, Ht.
  unfold bind, console_error, act, process_exit; cbv beta iota.
  f_equal; world_eq.
Qed.

(** Every third argument is absent, empty, a valid name, or invalid. *)
Lemma network_argument_cases (argv : list string) :
  (argv !! 2%nat = None \/ argv !! 2%nat = Some "") \/
  (exists net, argv !! 2%nat = Some (network_name net)) \/
  (exists name, argv !! 2%nat = Some name /\
                name <> "" /\ name <> "standalone" /\ name <> "testnet").
Proof.
  destruct (argv !! 2%nat) as [name|]; [|left; left; reflexivity].
  destruct (String.eqb_spec name "") as [->|Hne]; [left; right; reflexivity|].
  destruct (String.eqb_spec name "standalone") as [->|Hs].
  { right; left. exists standalone. reflexivity. }
  destruct (String.eqb_spec name "testnet") as [->|Ht].
  { right; left. exists testnet. reflexivity. }
  right; right. exists name. auto.
Qed.

(** C3. In every run of the entry point with a valid network argument: if
    [buildFreshWallet] returns a handle, the run makes exactly one close
    attempt, on that handle, [main] returns normally whether the close
    succeeds or fails, the exit status is the one set before (0 unless one
    was set), nothing goes to standard error, and the last thing that
    happens is the log call that reports the close: a warning when it
    failed; if [buildFreshWallet] throws, the run makes no close attempt
    and ends with status 1; in no other case is a close attempted. A run
    without a valid network argument makes no close attempt either. *)
Theorem main_closes_constructed_wallet_once
  (sdk : Sdk) (argv : list string) (w : World) :
  (forall net,
      argv !! 2%nat = Some (network_name net) ->
      let built := buildFreshWallet sdk (endpoints_of net) (before_build net w) in
      let final := run sdk argv w in
      (forall h seed w1,
          built = (Ret (h, seed), w1) ->
          List.filter is_close (since w (snd final)) = [EvClose (wallet_id h)] /\
          fst (main sdk argv w) = Ret tt /\
          fst final = Some (default 0 (exitCode w)) /\
          stderr_of (since w (snd final)) = [] /\
          last (trace (snd final)) =
            Some (EvLog match w_close h with
                        | None => info "Wallet closed"
                        | Some closeErr =>
                            mkLogCall Warn (BindCloseErr closeErr)
                                      "Failed to close wallet cleanly"
                        end)) /\
      (forall e w1,
          built = (Throw e, w1) ->
          List.filter is_close (since w (snd final)) = [] /\
          fst final = Some 1) /\
      ((forall h seed w1, built <> (Ret (h, seed), w1)) ->
       List.filter is_close (since w (snd final)) = [])) /\
  ((forall net, argv !! 2%nat <> Some (network_name net)) ->
   List.filter is_close (since w (snd (run sdk argv w))) = []).
Proof.
  split.
  - intros net H built final.
    pose proof (buildFreshWallet_frame sdk (endpoints_of net) (before_build net w))
      as (_ & Hec & _ & _ & Hnx & evs & Htr & _ & Herr & _ & Hcl & _).
    fold built in Hec, Hnx, Htr.
    assert (exitCode (before_build net w) = exitCode w) as Hec0 by reflexivity.
    assert (trace (before_build net w) =
            trace w ++ [EvSetNetworkId (id_of net);
                        EvLog (mkLogCall Info (BindNetwork (network_name net))
                                         "Creating new wallet")]) as Htr0.
    { unfold before_build. cbn [trace with_main_wallet emit with_networkId].
      rewrite <- app_assoc. reflexivity. }
    rewrite Htr0, <- app_assoc in Htr. cbn [app] in Htr.
    unfold final, run. rewrite (main_eq sdk net argv w H). fold built.
    destruct built as [[[h seed]|e|c|] w1] eqn:Eb; cbn [fst snd] in *.
    + split; [|split].
      * intros h' seed' w1' E. inversion E; subst h' seed' w1'.
        world_norm.
        rewrite (since_emit_all_from w (with_main_wallet (Some h) w1) _ _ Htr).
        split.
        { cbn [app List.filter is_close]. rewrite !List.filter_app, Hcl.
          reflexivity. }
        split; [reflexivity|].
        split. { cbn [exitCode emit_all with_main_wallet]. rewrite Hec, Hec0.
                 reflexivity. }
        split. { unfold stderr_of in *. cbn [app pick].
                 rewrite !pick_app, Herr. reflexivity. }
        rewrite trace_emit_all.
        change [EvStdout ""; EvStdout (repeat_string "=" 60);
                EvStdout "  NEW WALLET CREATED"; EvStdout (repeat_string "=" 60);
                EvStdout ""; EvStdout ("  Network: " +:+ network_name net);
                EvStdout ("  Seed: " +:+ seed); EvStdout "";
                EvStdout "  ⚠️  IMPORTANT: Save your seed securely!";
                EvStdout "  You will need it to restore your wallet.";
                EvStdout ""; EvStdout (repeat_string "=" 60);
                EvClose (wallet_id h);
                EvLog match w_close h with
                      | Some e =>
                          mkLogCall Warn (BindCloseErr e)
                                    "Failed to close wallet cleanly"
                      | None => info "Wallet closed"
                      end]
          with ([EvStdout ""; EvStdout (repeat_string "=" 60);
                 EvStdout "  NEW WALLET CREATED"; EvStdout (repeat_string "=" 60);
                 EvStdout ""; EvStdout ("  Network: " +:+ network_name net);
                 EvStdout ("  Seed: " +:+ seed); EvStdout "";
                 EvStdout "  ⚠️  IMPORTANT: Save your seed securely!";
                 EvStdout "  You will need it to restore your wallet.";
                 EvStdout ""; EvStdout (repeat_string "=" 60);
                 EvClose (wallet_id h)]
                ++ [EvLog match w_close h with
                          | Some e =>
                              mkLogCall Warn (BindCloseErr e)
                                        "Failed to close wallet cleanly"
                          | None => info "Wallet closed"
                          end]).
        rewrite app_assoc. apply last_snoc.
      * intros e w1' E. discriminate E.
      * intros Hno. exfalso. apply (Hno h seed w1). reflexivity.
    + assert (List.filter is_close
                (since w (with_exitCode 1
                   (emit (EvLog (mkLogCall LvlError (BindErr e)
                                           "Error while creating wallet")) w1)))
              = []) as Hnone.
      { world_norm.
        rewrite (since_emit_all_from w (with_exitCode 1 w1) _ _ Htr).
        cbn [app List.filter is_close]. rewrite !List.filter_app, Hcl.
        reflexivity. }
      split; [|split].
      * intros h seed w1' E. discriminate E.
      * intros e' w1' E. inversion E; subst e' w1'.
        split; [exact Hnone|reflexivity].
      * intros _. exact Hnone.
    + exfalso. apply (Hnx c). reflexivity.
    + split; [|split].
      * intros h seed w1' E. discriminate E.
      * intros e w1' E. discriminate E.
      * intros _. rewrite (since_app w w1 _ Htr).
        cbn [List.filter is_close]. exact Hcl.
  - intros Hnone. unfold run.
    destruct (network_argument_cases argv) as [Hu|[[net Hv]|(name & Hn & H1 & H2 & H3)]].
    + rewrite (main_usage sdk argv w Hu). cbn [snd].
      rewrite (since_emit_all w w _ eq_refl). reflexivity.
    + exfalso. exact (Hnone net Hv).
    + rewrite (main_invalid sdk argv name w Hn H1 H2 H3). cbn [snd].
      rewrite (since_emit_all w w _ eq_refl). reflexivity.
Qed.

Lemma main_closes_constructed_wallet_once_witness :
  List.filter is_close
    (since initial_world
       (snd (run sample_sdk (sample_argv "standalone") initial_world))) =
    [EvClose 1] /\
  fst (run sample_sdk (sample_argv "standalone") initial_world) = Some 0.
Proof.
  pose proof (main_closes_constructed_wallet_once sample_sdk
                (sample_argv "standalone") initial_world) as [H _].
  specialize (H standalone eq_refl). cbv zeta in H.
  destruct H as [H _].
  destruct (H (sample_wallet
                 (build_args (endpoints_of standalone)
                    (fresh_seed sample_sdk initial_world)
                    (before_build standalone initial_world)))
              (fresh_seed sample_sdk initial_world)
              (snd (buildFreshWallet sample_sdk (endpoints_of standalone)
                      (before_build standalone initial_world)))
              eq_refl) as (Hc & _ & Hs & _).
  split; [exact Hc|exact Hs].
Defined.




Lemma hex_of_byte_shape (b : byte) :
  exists c1 c2,
    hex_of_byte b = String c1 (String c2 EmptyString) /\
    is_hex_digit c1 = true /\ is_hex_digit c2 = true.
Proof.
  destruct b; eexists; eexists; (split; [reflexivity|split; reflexivity]).
Qed.

Lemma append_two (c1 c2 : ascii) (s : string) :
  String c1 (String c2 EmptyString) +:+ s = String c1 (String c2 s).
Proof. reflexivity. Qed.

Lemma toHex_length (bytes : list byte) :
  String.length (toHex bytes) = (2 * length bytes)%nat.
Proof.
  induction bytes as [|b rest IH]; [reflexivity|].
  cbn [toHex length].
  destruct (hex_of_byte_shape b) as (c1 & c2 & E & _). rewrite E.
  rewrite append_two. cbn [String.length]. rewrite IH. lia.
Qed.

Lemma toHex_hex_digits (bytes : list byte) :
  forallb is_hex_digit (list_ascii_of_string (toHex bytes)) = true.
Proof.
  induction bytes as [|b rest IH]; [reflexivity|].
  cbn [toHex].
  destruct (hex_of_byte_shape b) as (c1 & c2 & E & H1 & H2). rewrite E.
  rewrite append_two. cbn [list_ascii_of_string forallb].
  rewrite H1, H2, IH. reflexivity.
Qed.

Lemma buildFreshWallet_returns_fresh_seed
  (sdk : Sdk) (config : Config) (w : World) h s w1 :
  buildFreshWallet sdk config w = (Ret (h, s), w1) -> s = fresh_seed sdk w.
Proof.
  rewrite buildFreshWallet_eq. cbv zeta.
  destruct (buildFromSeed sdk _) as [e|h0]; [discriminate|].
  destruct (w_start h0) as [e|]; [discriminate|].
  destruct (firstValueFrom _) as [state|e|]; [|discriminate|discriminate].
  intros E. inversion E. reflexivity.
Qed.

Lemma firstValueFrom_head {A} (s : Stream A) t a more :
  events s = (t, a) :: more -> firstValueFrom s = Fulfilled a.
Proof. intros E. unfold firstValueFrom. rewrite E. reflexivity. Qed.

(** C6. [buildFreshWallet] draws 32 bytes and hex-encodes them into a seed
    of 64 hexadecimal digits; it makes one construction call, with the
    configuration's four endpoints, that seed, the current identifier and
    the log level; when the wallet is built and started and a first
    snapshot arrives, it logs seed, address and balance (zero when the
    native-token entry is absent) and returns the handle and the seed
    without subscribing again, whatever the balance. In a run of the entry
    point in which it returns, and no exit code was set before, the
    standard output is the banner with the network name and that seed, and
    the exit status is 0. *)
Theorem buildFreshWallet_fresh_seed_no_wait
  (sdk : Sdk) (config : Config) (w : World) :
  let seed := toHex (map (getRandomValues sdk) (seq (drawn w) 32)) in
  let args := mkBuildArgs (indexer config) (indexerWS config)
                          (proofServer config) (node config) seed
                          (networkId w) "warn" in
  String.length seed = 64%nat /\
  forallb is_hex_digit (list_ascii_of_string seed) = true /\
  builds_of (since w (snd (buildFreshWallet sdk config w))) = [args] /\
  (forall h t state more,
      buildFromSeed sdk args = inr h ->
      w_start h = None ->
      events (next_subscription h w) = (t, state) :: more ->
      fst (buildFreshWallet sdk config w) = Ret (h, seed) /\
      drawn (snd (buildFreshWallet sdk config w)) = (drawn w + 32)%nat /\
      since w (snd (buildFreshWallet sdk config w)) =
        [ EvBuild args;
          EvStart (wallet_id h);
          EvState (wallet_id h);
          EvLog (info ("Wallet seed is: " +:+ seed));
          EvLog (info ("Wallet address is: " +:+ address state));
          EvLog (info ("Wallet balance is: "
                       +:+ show_N match balances state !! nativeToken sdk with
                                  | Some b => b
                                  | None => 0%N
                                  end)) ]) /\
  (forall net argv h seed' w1,
      argv !! 2%nat = Some (network_name net) ->
      exitCode w = None ->
      buildFreshWallet sdk (endpoints_of net) (before_build net w)
        = (Ret (h, seed'), w1) ->
      seed' = seed /\
      fst (run sdk argv w) = Some 0 /\
      stdout_of (since w (snd (run sdk argv w))) =
        [ "";
          "============================================================";
          "  NEW WALLET CREATED";
          "============================================================";
          "";
          "  Network: " +:+ network_name net;
          "  Seed: " +:+ seed;
          "";
          "  ⚠️  IMPORTANT: Save your seed securely!";
          "  You will need it to restore your wallet.";
          "";
          "============================================================" ]).
Proof.
  intros seed args.
  split. { unfold seed. rewrite toHex_length, length_map, length_seq. reflexivity. }
  split. { apply toHex_hex_digits. }
  split.
  { pose proof (buildFreshWallet_frame sdk config w)
      as (_ & _ & _ & _ & _ & evs & Htr & _ & _ & Hb & _).
    rewrite (since_app _ _ _ Htr). unfold builds_of in *. cbn [pick].
    rewrite Hb. reflexivity. }
  split.
  - intros h t state more Hbuild Hstart Hfirst.
    rewrite buildFreshWallet_eq. cbv zeta. fold seed. fold args.
    rewrite Hbuild, Hstart.
    rewrite !next_subscription_emit by reflexivity.
    change (next_subscription h (with_drawn (drawn w + 32)%nat w))
      with (next_subscription h w).
    rewrite (firstValueFrom_head _ _ _ _ Hfirst). cbn [fst snd].
    split; [reflexivity|]. split; [reflexivity|].
    since_trace.
  - intros net argv h seed' w1 Hv Hec Hb.
    pose proof (buildFreshWallet_returns_fresh_seed _ _ _ _ _ _ Hb) as Hseed.
    change (fresh_seed sdk (before_build net w)) with seed in Hseed.
    subst seed'. split; [reflexivity|].
    pose proof (buildFreshWallet_frame sdk (endpoints_of net) (before_build net w))
      as (_ & Hx & _ & _ & _ & evs & Htr & Hout & _).
    rewrite Hb in Hx, Htr. cbn [fst snd] in Hx, Htr.
    unfold run. rewrite (main_eq sdk net argv w Hv). rewrite Hb.
    cbn [fst snd].
    split.
    + change (exitCode (before_build net w)) with (exitCode w) in Hx.
      rewrite Hec in Hx.
      world_norm. cbn [exitCode emit_all with_main_wallet].
      rewrite Hx. reflexivity.
    + assert (trace (before_build net w) =
              trace w ++ [EvSetNetworkId (id_of net);
                          EvLog (mkLogCall Info (BindNetwork (network_name net))
                                           "Creating new wallet")]) as Htr0.
      { unfold before_build. cbn [trace with_main_wallet emit with_networkId].
        rewrite <- app_assoc. reflexivity. }
      rewrite Htr0, <- app_assoc in Htr. cbn [app] in Htr.
      world_norm.
      rewrite (since_emit_all_from w (with_main_wallet (Some h) w1) _ _ Htr).
      unfold stdout_of in *. cbn [app pick]. rewrite pick_app, Hout.
      reflexivity.
Qed.

Lemma buildFreshWallet_fresh_seed_no_wait_witness :
  fst (buildFreshWallet sample_sdk (endpoints_of standalone) initial_world) =
    Ret (sample_wallet
           (build_args (endpoints_of standalone)
              "a73ca73ca73ca73ca73ca73ca73ca73ca73ca73ca73ca73ca73ca73ca73ca73c"
              initial_world),
         "a73ca73ca73ca73ca73ca73ca73ca73ca73ca73ca73ca73ca73ca73ca73ca73c") /\
  fst (run sample_sdk (sample_argv "standalone") initial_world) = Some 0.
Proof.
  pose proof (buildFreshWallet_fresh_seed_no_wait sample_sdk
                (endpoints_of standalone) initial_world)
    as (_ & _ & _ & Hret & Hcli).
  cbv zeta in Hret, Hcli.
  split.
  - apply (Hret _ 0 _ [] eq_refl eq_refl eq_refl).
  - apply (Hcli standalone (sample_argv "standalone") _ _ _
                eq_refl eq_refl eq_refl).
Defined.

Lemma filter_state_logs (id : nat) (out : list LogCall) :
  List.filter (is_state_of id) (map EvLog out) = [].
Proof. induction out as [|c rest IH]; [reflexivity|exact IH]. Qed.

Lemma next_subscription_emit_all (h : WalletHandle) es (w : World) n :
  count_events (is_state_of (wallet_id h)) es = n ->
  next_subscription h (emit_all es w) =
    w_state h (count_events (is_state_of (wallet_id h)) (trace w) + n).
Proof.
  intros <-. unfold next_subscription, count_events. rewrite trace_emit_all.
  rewrite List.filter_app, length_app. reflexivity.
Qed.

Lemma buildWalletAndWaitForFunds_returns_funded
  (sdk : Sdk) (config : Config) (seed : string) (w : World) h w' :
  buildWalletAndWaitForFunds sdk config seed w = (Ret h, w') ->
  exists b,
    (0 < b)%N /\
    last (trace w') =
      Some (EvLog (info ("Wallet balance is: " +:+ show_N b))).
Proof.
  rewrite buildWalletAndWaitForFunds_eq. cbv zeta.
  destruct (buildFromSeed sdk _) as [e|h0]; [discriminate|].
  destruct (w_start h0) as [e|]; [discriminate|].
  destruct (firstValueFrom _) as [state|e|]; [|discriminate|discriminate].
  assert (forall b w0,
    (0 < b)%N ->
    (Ret h0, emit (EvLog (info ("Wallet balance is: " +:+ show_N b))) w0)
      = (Ret h, w') ->
    exists b0, (0 < b0)%N /\
      last (trace w') =
        Some (EvLog (info ("Wallet balance is: " +:+ show_N b0)))) as Hlast.
  { intros b w0 Hb E. inversion E; subst. exists b. split; [exact Hb|].
    rewrite trace_emit. apply last_snoc. }
  destruct (balances state !! nativeToken sdk) as [[|p]|]; cbn [N.eqb].
  + destruct (fst (waitForFunds _ _)) as [b|e|] eqn:Ef;
      [|discriminate|discriminate].
    apply Hlast. eapply waitForFunds_fulfilled_positive; exact Ef.
  + apply Hlast. reflexivity.
  + destruct (fst (waitForFunds _ _)) as [b|e|] eqn:Ef;
      [|discriminate|discriminate].
    apply Hlast. eapply waitForFunds_fulfilled_positive; exact Ef.
Qed.

Lemma buildWalletAndWaitForFunds_cases
  (sdk : Sdk) (config : Config) (seed : string) (w : World)
  (h : WalletHandle) (t : Z) (state : WalletState)
  (more : list (Z * WalletState)) :
  buildFromSeed sdk (build_args config seed w) = inr h ->
  w_start h = None ->
  events (next_subscription h w) = (t, state) :: more ->
  let id := wallet_id h in
  let funds :=
    waitForFunds (nativeToken sdk)
      (w_state h (S (count_events (is_state_of id) (trace w)))) in
  let w5 :=
    emit_all [ EvBuild (build_args config seed w); EvStart id; EvState id;
               EvLog (info ("Wallet seed is: " +:+ seed));
               EvLog (info ("Wallet address is: " +:+ address state)) ] w in
  let waited :=
    let w9 := emit_all ([ EvLog (info "Wallet balance is: 0");
                          EvLog (info "Waiting to receive tokens...");
                          EvState id ] ++ map EvLog (snd funds)) w5 in
    match fst funds with
    | Fulfilled b =>
        (Ret h, emit (EvLog (info ("Wallet balance is: " +:+ show_N b))) w9)
    | Rejected e => (Throw e, w9)
    | Pending => (Blocked, w9)
    end in
  buildWalletAndWaitForFunds sdk config seed w =
    match balances state !! nativeToken sdk with
    | None => waited
    | Some b =>
        if (b =? 0)%N then waited
        else (Ret h, emit (EvLog (info ("Wallet balance is: " +:+ show_N b))) w5)
    end.
Proof.
  intros Hbuild Hstart Hfirst id funds.
  rewrite buildWalletAndWaitForFunds_eq. cbv zeta.
  change (mkBuildArgs (indexer config) (indexerWS config) (proofServer config)
            (node config) seed (networkId w) "warn")
    with (build_args config seed w).
  rewrite Hbuild, Hstart. cbv beta iota. world_norm.
  rewrite (next_subscription_emit_all h _ w 0) by reflexivity.
  rewrite Nat.add_0_r.
  change (w_state h (count_events (is_state_of (wallet_id h)) (trace w)))
    with (next_subscription h w).
  rewrite (firstValueFrom_head _ _ _ _ Hfirst). cbv beta iota. world_norm.
  rewrite (next_subscription_emit_all h _ w 1)
    by (unfold count_events; cbn [List.filter is_state_of];
        rewrite Nat.eqb_refl; reflexivity).
  rewrite Nat.add_1_r.
  fold id. fold funds.
  destruct (balances state !! nativeToken sdk) as [b|];
    [destruct (b =? 0)%N|];
    destruct (fst funds); f_equal; world_eq.
Qed.

(** C4. When the wallet is built and started and a first snapshot arrives,
    [buildWalletAndWaitForFunds] goes through the shared sequence
    (construction call, start, subscription, seed and address logged) and
    then: with a first native-token balance that is present and not zero
    it logs that balance and returns the handle without subscribing again;
    with a zero or absent one it logs a zero balance and the waiting line,
    runs the fund-wait protocol on a second subscription, and returns the
    handle, after logging the balance, only when the protocol is fulfilled
    (it throws when the protocol rejects and never returns while the
    protocol is pending). The second subscription is made exactly in the
    zero-or-absent case. Whenever the function returns, the last thing it
    did was to log a balance that is strictly positive. *)
Theorem buildWalletAndWaitForFunds_waits_iff_unfunded
  (sdk : Sdk) (config : Config) (seed : string) (w : World) :
  let args := mkBuildArgs (indexer config) (indexerWS config)
                          (proofServer config) (node config) seed
                          (networkId w) "warn" in
  let r := buildWalletAndWaitForFunds sdk config seed w in
  (forall h t state more,
      buildFromSeed sdk args = inr h ->
      w_start h = None ->
      events (next_subscription h w) = (t, state) :: more ->
      let id := wallet_id h in
      let first := balances state !! nativeToken sdk in
      let shared :=
        [ EvBuild args; EvStart id; EvState id;
          EvLog (info ("Wallet seed is: " +:+ seed));
          EvLog (info ("Wallet address is: " +:+ address state)) ] in
      let funds :=
        waitForFunds (nativeToken sdk)
          (w_state h (S (count_events (is_state_of id) (trace w)))) in
      (forall b,
          first = Some b -> b <> 0%N ->
          fst r = Ret h /\
          since w (snd r) =
            shared ++ [ EvLog (info ("Wallet balance is: " +:+ show_N b)) ]) /\
      (first = None \/ first = Some 0%N ->
       fst r = match fst funds with
               | Fulfilled _ => Ret h
               | Rejected e => Throw e
               | Pending => Blocked
               end /\
       since w (snd r) =
         shared
         ++ [ EvLog (info "Wallet balance is: 0");
              EvLog (info "Waiting to receive tokens...");
              EvState id ]
         ++ map EvLog (snd funds)
         ++ match fst funds with
            | Fulfilled b => [ EvLog (info ("Wallet balance is: " +:+ show_N b)) ]
            | _ => []
            end) /\
      (count_events (is_state_of id) (since w (snd r)) = 2%nat <->
       first = None \/ first = Some 0%N)) /\
  (forall h w',
      r = (Ret h, w') ->
      exists b,
        (0 < b)%N /\
        last (trace w') =
          Some (EvLog (info ("Wallet balance is: " +:+ show_N b)))).
Proof.
  intros args r. split.
  - intros h t state more Hbuild Hstart Hfirst id first shared funds.
    pose proof (buildWalletAndWaitForFunds_cases sdk config seed w h t state
                  more Hbuild Hstart Hfirst) as Hr.
    cbv zeta in Hr. fold r in Hr. fold id in Hr. fold funds in Hr.
    fold first in Hr.
    rewrite Hr. cbv zeta. clear Hr. subst shared.
    assert (forall p, p <> 0%N -> (p =? 0)%N = false) as Hnz
        by (intros p Hp; apply N.eqb_neq; exact Hp).
    split; [|split].
    + intros b Hb Hne. rewrite Hb, (Hnz b Hne). cbn [fst snd].
      split; [reflexivity|]. since_trace.
    + intros Hz.
      assert (match first with
              | Some b => (b =? 0)%N
              | None => true
              end = true) as Hc by (destruct Hz as [->| ->]; reflexivity).
      destruct first as [b|]; [rewrite Hc|];
        destruct (fst funds); cbn [fst snd];
        (split; [reflexivity|]); rewrite ?app_nil_r; since_trace.
    + destruct first as [[|p]|]; cbn [N.eqb].
      * split; [intros _; right; reflexivity|intros _].
        destruct (fst funds); cbn [snd]; world_norm;
          rewrite (since_emit_all w w _ eq_refl);
          unfold count_events; cbn [List.filter is_state_of];
          rewrite Nat.eqb_refl; cbn [List.filter is_state_of];
          rewrite ?List.filter_app, filter_state_logs; reflexivity.
      * split; [|intros [E|E]; discriminate E].
        cbn [snd]. world_norm. rewrite (since_emit_all w w _ eq_refl).
        unfold count_events; cbn [List.filter is_state_of].
        rewrite Nat.eqb_refl. cbn [length]. intros E; discriminate E.
      * split; [intros _; left; reflexivity|intros _].
        destruct (fst funds); cbn [snd]; world_norm;
          rewrite (since_emit_all w w _ eq_refl);
          unfold count_events; cbn [List.filter is_state_of];
          rewrite Nat.eqb_refl; cbn [List.filter is_state_of];
          rewrite ?List.filter_app, filter_state_logs; reflexivity.
  - intros h w' Hr. eapply buildWalletAndWaitForFunds_returns_funded; exact Hr.
Qed.

Lemma buildWalletAndWaitForFunds_waits_iff_unfunded_witness :
  fst (buildWalletAndWaitForFunds sample_sdk (endpoints_of standalone)
         GENESIS_MINT_WALLET_SEED initial_world) =
    Ret (sample_wallet (build_args (endpoints_of standalone)
                          GENESIS_MINT_WALLET_SEED initial_world)) /\
  count_events (is_state_of 1)
    (since initial_world
       (snd (buildWalletAndWaitForFunds sample_sdk (endpoints_of standalone)
               GENESIS_MINT_WALLET_SEED initial_world))) = 2%nat.
Proof.
  pose proof (buildWalletAndWaitForFunds_waits_iff_unfunded sample_sdk
                (endpoints_of standalone) GENESIS_MINT_WALLET_SEED
                initial_world) as [Hcases _].
  cbv zeta in Hcases.
  destruct (Hcases (sample_wallet (build_args (endpoints_of standalone)
                                     GENESIS_MINT_WALLET_SEED initial_world))
                   0 _ [] eq_refl eq_refl eq_refl) as (_ & Hwait & Hcount).
  split.
  - exact (proj1 (Hwait (or_introl eq_refl))).
  - exact (proj2 Hcount (or_introl eq_refl)).
Defined.

Lemma pick_logs {A} (f : Event -> option A) (out : list LogCall) :
  (forall c, f (EvLog c) = None) -> pick f (map EvLog out) = [].
Proof.
  intros Hf. induction out as [|c rest IH]; [reflexivity|].
  cbn [map pick]. rewrite Hf. exact IH.
Qed.

Lemma buildWalletAndWaitForFunds_trace
  (sdk : Sdk) (config : Config) (seed : string) (w : World) :
  exists rest,
    trace (snd (buildWalletAndWaitForFunds sdk config seed w)) =
      trace w ++ EvBuild (build_args config seed w) :: rest /\
    builds_of rest = [].
Proof.
  rewrite buildWalletAndWaitForFunds_eq. cbv zeta.
  change (mkBuildArgs (indexer config) (indexerWS config) (proofServer config)
            (node config) seed (networkId w) "warn")
    with (build_args config seed w).
  destruct (buildFromSeed sdk _) as [e|h].
  { eexists. cbn [snd]. world_norm. rewrite trace_emit_all.
    split; reflexivity. }
  destruct (w_start h) as [e|].
  { eexists. cbn [snd]. world_norm. rewrite trace_emit_all.
    split; reflexivity. }
  destruct (firstValueFrom _) as [state|e|].
  2,3: eexists; cbn [snd]; world_norm; rewrite trace_emit_all;
       split; reflexivity.
  destruct (balances state !! nativeToken sdk) as [[|p]|]; cbn [N.eqb];
    try destruct (fst (waitForFunds _ _));
    eexists; cbn [snd]; world_norm; rewrite trace_emit_all;
    (split; [reflexivity|]);
    unfold builds_of; cbn [pick];
    rewrite ?pick_app, ?pick_logs by reflexivity; reflexivity.
Qed.

Lemma setup_eq (sdk : Sdk) (tc : TestConfiguration) (w : World) :
  setup sdk tc w =
    match buildWalletAndWaitForFunds sdk (dappConfig tc) (seed tc)
            (emit (EvLog (info "Setting up wallet")) w) with
    | (Ret h, w1) => (Ret h, with_this_wallet h w1)
    | other => other
    end.
Proof.
  unfold setup, bind, logger_info, logger_call, act.
  destruct (buildWalletAndWaitForFunds _ _ _ _) as [[h|e|c|] w1]; reflexivity.
Qed.

Lemma firstValueFrom_fulfilled {A} (s : Stream A) a :
  firstValueFrom s = Fulfilled a ->
  exists t more, events s = (t, a) :: more.
Proof.
  unfold firstValueFrom. destruct (events s) as [|[t a'] more].
  - destruct (ending s); discriminate.
  - intros E. inversion E; subst. eauto.
Qed.

Lemma throttleTime_incl (th : Throttle) (evs : list (Z * WalletState)) ev :
  In ev (throttleTime th evs) -> In ev evs.
Proof.
  revert th. induction evs as [|[t state] rest IH]; intros th Hin.
  - destruct Hin.
  - cbn [throttleTime] in Hin. destruct (throttle_passes th t).
    + destruct Hin as [E|Hin]; [left; exact E|right; eapply IH; exact Hin].
    + right. eapply IH; exact Hin.
Qed.

Lemma first_evaluated_ready_snapshot
  (nt : string) (th : Throttle) (evs : list (Z * WalletState)) (b : N) :
  first_evaluated_ready nt th evs = Some b ->
  exists t state,
    In (t, state) evs /\
    is_synced state = true /\
    balances state !! nt = Some b /\
    (0 < b)%N.
Proof.
  unfold first_evaluated_ready.
  destruct (List.find _ _) as [[t state]|] eqn:F; [|discriminate].
  intros E. injection E as <-.
  apply find_some in F. destruct F as [Hin Hr]. cbn [snd] in *.
  apply throttleTime_incl in Hin.
  unfold ready in Hr. apply andb_true_iff in Hr. destruct Hr as [Hs Hp].
  unfold is_positive in Hp. apply N.ltb_lt in Hp.
  exists t, state. split; [exact Hin|]. split; [exact Hs|].
  unfold balance_or_zero in *.
  destruct (balances state !! nt) as [b|]; [|lia]. split; [reflexivity|exact Hp].
Qed.

(** How the promise of [waitForFunds] settles, read on the snapshots. *)
Lemma waitForFunds_settles (nt : string) (s : Stream WalletState) :
  fst (waitForFunds nt s) =
    match first_evaluated_ready nt None (events s) with
    | Some b => Fulfilled b
    | None =>
        match ending s with
        | StillOpen => Pending
        | Completed => Rejected EmptyError
        | Failed e => Rejected e
        end
    end.
Proof.
  pose proof (fundwait_run_first_evaluated nt None (events s)) as H.
  unfold waitForFunds.
  destruct (fundwait_run nt (Waiting None) (events s)) as [st out].
  cbn [fst] in H.
  destruct (first_evaluated_ready nt None (events s)) as [b|].
  - subst st. reflexivity.
  - destruct H as [th' ->]. destruct (ending s); reflexivity.
Qed.

Lemma buildWalletAndWaitForFunds_outcome
  (sdk : Sdk) (config : Config) (sd : string) (w : World)
  (h : WalletHandle) (t : Z) (state : WalletState)
  (more : list (Z * WalletState)) :
  buildFromSeed sdk (build_args config sd w) = inr h ->
  w_start h = None ->
  events (next_subscription h w) = (t, state) :: more ->
  let second :=
    w_state h (S (count_events (is_state_of (wallet_id h)) (trace w))) in
  let waited :=
    match first_evaluated_ready (nativeToken sdk) None (events second) with
    | Some _ => Ret h
    | None =>
        match ending second with
        | StillOpen => Blocked
        | Completed => Throw EmptyError
        | Failed e => Throw e
        end
    end in
  fst (buildWalletAndWaitForFunds sdk config sd w) =
    match balances state !! nativeToken sdk with
    | None => waited
    | Some b => if (b =? 0)%N then waited else Ret h
    end.
Proof.
  intros Hbuild Hstart Hfirst second waited.
  rewrite (buildWalletAndWaitForFunds_cases sdk config sd w h t state more
             Hbuild Hstart Hfirst).
  cbv zeta. fold second.
  assert (fst match fst (waitForFunds (nativeToken sdk) second) with
              | Fulfilled b =>
                  (Ret h,
                   emit (EvLog (info ("Wallet balance is: " +:+ show_N b)))
                     (emit_all
                        ([ EvLog (info "Wallet balance is: 0");
                           EvLog (info "Waiting to receive tokens...");
                           EvState (wallet_id h) ]
                         ++ map EvLog (snd (waitForFunds (nativeToken sdk) second)))
                        (emit_all
                           [ EvBuild (build_args config sd w);
                             EvStart (wallet_id h); EvState (wallet_id h);
                             EvLog (info ("Wallet seed is: " +:+ sd));
                             EvLog (info ("Wallet address is: " +:+ address state)) ]
                           w)))
              | Rejected e =>
                  (Throw e,
                   emit_all
                     ([ EvLog (info "Wallet balance is: 0");
                        EvLog (info "Waiting to receive tokens...");
                        EvState (wallet_id h) ]
                      ++ map EvLog (snd (waitForFunds (nativeToken sdk) second)))
                     (emit_all
                        [ EvBuild (build_args config sd w);
                          EvStart (wallet_id h); EvState (wallet_id h);
                          EvLog (info ("Wallet seed is: " +:+ sd));
                          EvLog (info ("Wallet address is: " +:+ address state)) ]
                        w))
              | Pending =>
                  (Blocked,
                   emit_all
                     ([ EvLog (info "Wallet balance is: 0");
                        EvLog (info "Waiting to receive tokens...");
                        EvState (wallet_id h) ]
                      ++ map EvLog (snd (waitForFunds (nativeToken sdk) second)))
                     (emit_all
                        [ EvBuild (build_args config sd w);
                          EvStart (wallet_id h); EvState (wallet_id h);
                          EvLog (info ("Wallet seed is: " +:+ sd));
                          EvLog (info ("Wallet address is: " +:+ address state)) ]
                        w))
              end = waited) as Hw.
  { unfold waited. rewrite waitForFunds_settles.
    destruct (first_evaluated_ready (nativeToken sdk) None (events second));
      [reflexivity|]. destruct (ending second); reflexivity. }
  destruct (balances state !! nativeToken sdk) as [b|];
    [destruct (b =? 0)%N|]; [exact Hw|reflexivity|exact Hw].
Qed.

Lemma buildWalletAndWaitForFunds_returns
  (sdk : Sdk) (config : Config) (sd : string) (w : World) h w' :
  buildWalletAndWaitForFunds sdk config sd w = (Ret h, w') ->
  exists t state more,
    buildFromSeed sdk (build_args config sd w) = inr h /\
    w_start h = None /\
    events (next_subscription h w) = (t, state) :: more.
Proof.
  rewrite buildWalletAndWaitForFunds_eq. cbv zeta.
  change (mkBuildArgs (indexer config) (indexerWS config) (proofServer config)
            (node config) sd (networkId w) "warn")
    with (build_args config sd w).
  destruct (buildFromSeed sdk _) as [e|g] eqn:B; [discriminate|].
  destruct (w_start g) as [e|] eqn:Hs; [discriminate|].
  rewrite !next_subscription_emit by reflexivity.
  destruct (firstValueFrom (next_subscription g w)) as [state|e|] eqn:F;
    [|discriminate|discriminate].
  intros E.
  assert (g = h) as ->.
  { destruct (balances state !! nativeToken sdk) as [[|p]|];
      cbn [N.eqb] in E;
      try destruct (fst (waitForFunds _ _));
      congruence. }
  apply firstValueFrom_fulfilled in F. destruct F as (t & more & F).
  exists t, state, more. split; [reflexivity|]. split; [exact Hs|exact F].
Qed.

(** The balance logged on return is that of a snapshot of the wallet. *)
Lemma buildWalletAndWaitForFunds_returns_snapshot
  (sdk : Sdk) (config : Config) (sd : string) (w : World) h w' :
  buildWalletAndWaitForFunds sdk config sd w = (Ret h, w') ->
  buildFromSeed sdk (build_args config sd w) = inr h /\
  exists b n t state,
    In (t, state) (events (w_state h n)) /\
    balances state !! nativeToken sdk = Some b /\
    (0 < b)%N /\
    last (trace w') =
      Some (EvLog (info ("Wallet balance is: " +:+ show_N b))).
Proof.
  intros E.
  destruct (buildWalletAndWaitForFunds_returns _ _ _ _ _ _ E)
    as (t & state & more & Hbuild & Hstart & Hfirst).
  split; [exact Hbuild|].
  pose proof (buildWalletAndWaitForFunds_cases sdk config sd w h t state more
                Hbuild Hstart Hfirst) as Hc.
  cbv zeta in Hc. rewrite E in Hc.
  assert (forall b w0,
    (Ret h, w') =
      (Ret h, emit (EvLog (info ("Wallet balance is: " +:+ show_N b))) w0) ->
    last (trace w') =
      Some (EvLog (info ("Wallet balance is: " +:+ show_N b)))) as Hlast.
  { intros b w0 Eq. injection Eq as ->. rewrite trace_emit. apply last_snoc. }
  assert (forall b,
    fst (waitForFunds (nativeToken sdk)
           (w_state h (S (count_events (is_state_of (wallet_id h)) (trace w)))))
      = Fulfilled b ->
    exists t0 state0,
      In (t0, state0)
         (events (w_state h (S (count_events (is_state_of (wallet_id h))
                                  (trace w))))) /\
      balances state0 !! nativeToken sdk = Some b /\ (0 < b)%N) as Hsnap.
  { intros b Hf. rewrite waitForFunds_settles in Hf.
    destruct (first_evaluated_ready (nativeToken sdk) None _) as [b0|] eqn:Hfe.
    - injection Hf as ->.
      destruct (first_evaluated_ready_snapshot _ _ _ _ Hfe)
        as (t0 & state0 & Hin & _ & Hbal & Hpos).
      exists t0, state0. split; [exact Hin|]. split; [exact Hbal|exact Hpos].
    - destruct (ending _); discriminate Hf. }
  destruct (balances state !! nativeToken sdk) as [[|p]|] eqn:Hbal;
    cbn [N.eqb] in Hc.
  - destruct (fst (waitForFunds _ _)) as [b|e|] eqn:Hf;
      [|discriminate Hc|discriminate Hc].
    destruct (Hsnap b eq_refl) as (t0 & state0 & Hin & Hb & Hpos).
    exists b, (S (count_events (is_state_of (wallet_id h)) (trace w))),
           t0, state0.
    split; [exact Hin|]. split; [exact Hb|]. split; [exact Hpos|].
    eapply Hlast; exact Hc.
  - exists (N.pos p), (count_events (is_state_of (wallet_id h)) (trace w)),
           t, state.
    split; [unfold next_subscription in Hfirst; rewrite Hfirst; left; reflexivity|].
    split; [exact Hbal|]. split; [reflexivity|].
    eapply Hlast; exact Hc.
  - destruct (fst (waitForFunds _ _)) as [b|e|] eqn:Hf;
      [|discriminate Hc|discriminate Hc].
    destruct (Hsnap b eq_refl) as (t0 & state0 & Hin & Hb & Hpos).
    exists b, (S (count_events (is_state_of (wallet_id h)) (trace w))),
           t0, state0.
    split; [exact Hin|]. split; [exact Hb|]. split; [exact Hpos|].
    eapply Hlast; exact Hc.
Qed.

(** C10. [setup] logs that it sets the wallet up and then runs
    [buildWalletAndWaitForFunds] on the configuration's endpoints and
    seed: it returns, throws or waits for ever as that function does, does
    nothing else that can be observed, and makes one construction call,
    with that seed and those endpoints. When it returns a handle, that is
    the handle the SDK built, it has stored it, and the last thing it did
    was to log a strictly positive balance that is the native-token
    balance of a snapshot of that wallet. With a wallet that is built and
    started and a first snapshot that holds native tokens it returns at
    once; with a first snapshot that holds none it returns exactly when,
    on the second subscription, a snapshot that the throttle lets through
    is synced with a positive balance, waits for ever while the stream
    stays open without one, and throws when the stream ends without one.
    [LocalTestConfig] supplies the genesis seed (64 hexadecimal digits, 63
    zeros and a final 1) and the standalone endpoints, and constructing it
    sets the identifier to [Undeployed]. *)
Theorem setup_waits_for_funds (sdk : Sdk) (tc : TestConfiguration) (w : World) :
  let built :=
    buildWalletAndWaitForFunds sdk (dappConfig tc) (seed tc)
      (emit (EvLog (info "Setting up wallet")) w) in
  let args :=
    mkBuildArgs (indexer (dappConfig tc)) (indexerWS (dappConfig tc))
                (proofServer (dappConfig tc)) (node (dappConfig tc))
                (seed tc) (networkId w) "warn" in
  fst (setup sdk tc w) = fst built /\
  trace (snd (setup sdk tc w)) = trace (snd built) /\
  builds_of (since w (snd (setup sdk tc w))) = [ args ] /\
  (forall h w',
      setup sdk tc w = (Ret h, w') ->
      this_wallet w' = Some h /\
      buildFromSeed sdk args = inr h /\
      exists b n t state,
        In (t, state) (events (w_state h n)) /\
        balances state !! nativeToken sdk = Some b /\
        (0 < b)%N /\
        last (trace w') =
          Some (EvLog (info ("Wallet balance is: " +:+ show_N b)))) /\
  (forall h t state more,
      buildFromSeed sdk args = inr h ->
      w_start h = None ->
      events (next_subscription h w) = (t, state) :: more ->
      let second :=
        w_state h (S (count_events (is_state_of (wallet_id h)) (trace w))) in
      let waited :=
        match first_evaluated_ready (nativeToken sdk) None (events second) with
        | Some _ => Ret h
        | None =>
            match ending second with
            | StillOpen => Blocked
            | Completed => Throw EmptyError
            | Failed e => Throw e
            end
        end in
      fst (setup sdk tc w) =
        match balances state !! nativeToken sdk with
        | None => waited
        | Some b => if (b =? 0)%N then waited else Ret h
        end) /\
  (forall w0,
      fst (LocalTestConfig w0) =
        Ret {| seed := "0000000000000000000000000000000000000000000000000000000000000001";
               entrypoint := "dist/standalone.js";
               dappConfig :=
                 mkConfig "http://127.0.0.1:8088/api/v1/graphql"
                          "ws://127.0.0.1:8088/api/v1/graphql/ws"
                          "http://127.0.0.1:9944"
                          "http://127.0.0.1:6300";
               psMode := "undeployed" |} /\
      networkId (snd (LocalTestConfig w0)) = Undeployed) /\
  String.length GENESIS_MINT_WALLET_SEED = 64%nat /\
  forallb is_hex_digit (list_ascii_of_string GENESIS_MINT_WALLET_SEED) = true /\
  GENESIS_MINT_WALLET_SEED = repeat_string "0" 63 +:+ "1".
Proof.
  intros built args. rewrite setup_eq. fold built.
  pose proof (buildWalletAndWaitForFunds_trace sdk (dappConfig tc) (seed tc)
                (emit (EvLog (info "Setting up wallet")) w))
    as (rest & Htr & Hrest).
  fold built in Htr. rewrite trace_emit, <- app_assoc in Htr.
  cbn [app] in Htr.
  assert (forall w0,
    fst (LocalTestConfig w0) =
      Ret {| seed := "0000000000000000000000000000000000000000000000000000000000000001";
             entrypoint := "dist/standalone.js";
             dappConfig :=
               mkConfig "http://127.0.0.1:8088/api/v1/graphql"
                        "ws://127.0.0.1:8088/api/v1/graphql/ws"
                        "http://127.0.0.1:9944"
                        "http://127.0.0.1:6300";
             psMode := "undeployed" |} /\
    networkId (snd (LocalTestConfig w0)) = Undeployed) as Hlocal
    by (intros w0; split; reflexivity).
  assert (forall h t state more,
    buildFromSeed sdk args = inr h ->
    w_start h = None ->
    events (next_subscription h w) = (t, state) :: more ->
    fst built =
      match balances state !! nativeToken sdk with
      | None =>
          match first_evaluated_ready (nativeToken sdk) None
                  (events (w_state h (S (count_events
                                           (is_state_of (wallet_id h))
                                           (trace w))))) with
          | Some _ => Ret h
          | None =>
              match ending (w_state h (S (count_events
                                            (is_state_of (wallet_id h))
                                            (trace w)))) with
              | StillOpen => Blocked
              | Completed => Throw EmptyError
              | Failed e => Throw e
              end
          end
      | Some b =>
          if (b =? 0)%N
          then match first_evaluated_ready (nativeToken sdk) None
                       (events (w_state h (S (count_events
                                                (is_state_of (wallet_id h))
                                                (trace w))))) with
               | Some _ => Ret h
               | None =>
                   match ending (w_state h (S (count_events
                                                 (is_state_of (wallet_id h))
                                                 (trace w)))) with
                   | StillOpen => Blocked
                   | Completed => Throw EmptyError
                   | Failed e => Throw e
                   end
               end
          else Ret h
      end) as Hcases.
  { intros h t state more Hbuild Hstart Hfirst.
    assert (count_events (is_state_of (wallet_id h))
              (trace (emit (EvLog (info "Setting up wallet")) w)) =
            count_events (is_state_of (wallet_id h)) (trace w)) as Hcount.
    { unfold count_events. rewrite trace_emit, List.filter_app.
      cbn [List.filter is_state_of]. rewrite app_nil_r. reflexivity. }
    unfold built.
    rewrite (buildWalletAndWaitForFunds_outcome sdk (dappConfig tc) (seed tc)
               (emit (EvLog (info "Setting up wallet")) w) h t state more
               Hbuild Hstart).
    2:{ rewrite next_subscription_emit by reflexivity. exact Hfirst. }
    cbv zeta. rewrite Hcount. reflexivity. }
  assert (forall h w1,
    built = (Ret h, w1) ->
    buildFromSeed sdk args = inr h /\
    exists b n t state,
      In (t, state) (events (w_state h n)) /\
      balances state !! nativeToken sdk = Some b /\
      (0 < b)%N /\
      last (trace w1) =
        Some (EvLog (info ("Wallet balance is: " +:+ show_N b)))) as Hret.
  { intros h w1 Eb.
    apply (buildWalletAndWaitForFunds_returns_snapshot sdk (dappConfig tc)
             (seed tc) (emit (EvLog (info "Setting up wallet")) w) h w1 Eb). }
  destruct built as [[h|e|c|] w1] eqn:Eb; cbn [fst snd] in *.
  all: split; [reflexivity|]; split; [reflexivity|].
  all: split;
    [ unfold since; cbn [trace with_this_wallet];
      rewrite Htr, drop_app_length; unfold builds_of in *; cbn [pick];
      rewrite Hrest; reflexivity |].
  all: split;
    [| split; [exact Hcases|]; split; [exact Hlocal|];
       split; [reflexivity|]; split; reflexivity ].
  all: intros h' w' E; try discriminate E.
  inversion E; subst h' w'. split; [reflexivity|].
  apply (Hret h w1 eq_refl).
Qed.

Lemma setup_waits_for_funds_witness :
  this_wallet (snd (setup sample_sdk sample_local_config initial_world)) =
    Some (sample_wallet (build_args (endpoints_of standalone)
                           GENESIS_MINT_WALLET_SEED initial_world)) /\
  exists b n t state,
    In (t, state)
       (events (w_state (sample_wallet (build_args (endpoints_of standalone)
                                          GENESIS_MINT_WALLET_SEED
                                          initial_world)) n)) /\
    balances state !! sample_token = Some b /\
    (0 < b)%N /\
    last (trace (snd (setup sample_sdk sample_local_config initial_world))) =
      Some (EvLog (info ("Wallet balance is: " +:+ show_N b))).
Proof.
  pose proof (setup_waits_for_funds sample_sdk sample_local_config
                initial_world) as (_ & _ & _ & Hret & _).
  destruct (Hret (sample_wallet (build_args (endpoints_of standalone)
                                   GENESIS_MINT_WALLET_SEED initial_world))
                 (snd (setup sample_sdk sample_local_config initial_world)))
    as (Hthis & _ & Hsnap).
  - vm_compute. reflexivity.
  - split; [exact Hthis|exact Hsnap].
Defined.

Lemma buildFreshWallet_returns
  (sdk : Sdk) (config : Config) (w : World) h s w' :
  buildFreshWallet sdk config w = (Ret (h, s), w') ->
  exists t state more,
    buildFromSeed sdk (build_args config (fresh_seed sdk w) w) = inr h /\
    events (next_subscription h w) = (t, state) :: more /\
    s = fresh_seed sdk w /\
    since w w' =
      [ EvBuild (build_args config (fresh_seed sdk w) w);
        EvStart (wallet_id h);
        EvState (wallet_id h);
        EvLog (info ("Wallet seed is: " +:+ s));
        EvLog (info ("Wallet address is: " +:+ address state));
        EvLog (info ("Wallet balance is: "
                     +:+ show_N (balance_or_zero (nativeToken sdk) state))) ].
Proof.
  intros E. pose proof (buildFreshWallet_returns_fresh_seed _ _ _ _ _ _ E) as Hs.
  subst s. revert E.
  rewrite buildFreshWallet_eq. cbv zeta.
  change (toHex (map (getRandomValues sdk) (seq (drawn w) 32)))
    with (fresh_seed sdk w).
  change (mkBuildArgs (indexer config) (indexerWS config) (proofServer config)
            (node config) (fresh_seed sdk w) (networkId w) "warn")
    with (build_args config (fresh_seed sdk w) w).
  destruct (buildFromSeed sdk _) as [e|g] eqn:B; [discriminate|].
  destruct (w_start g) as [e|]; [discriminate|].
  rewrite !next_subscription_emit by reflexivity.
  change (next_subscription g (with_drawn (drawn w + 32)%nat w))
    with (next_subscription g w).
  destruct (firstValueFrom _) as [state|e|] eqn:F; [|discriminate|discriminate].
  intros E. assert (g = h) as -> by congruence.
  apply firstValueFrom_fulfilled in F. destruct F as (t & more & F).
  exists t, state, more.
  split; [reflexivity|]. split; [exact F|]. split; [reflexivity|].
  assert (w' = snd (Ret (h, fresh_seed sdk w), w')) as -> by reflexivity.
  rewrite <- E. cbn [snd]. since_trace.
Qed.

Lemma buildWalletFromSeed_returns
  (sdk : Sdk) (config : Config) (s : string) (w : World) h w' :
  buildWalletFromSeed sdk config s w = (Ret h, w') ->
  exists t state more,
    buildFromSeed sdk (build_args config s w) = inr h /\
    events (next_subscription h w) = (t, state) :: more /\
    since w w' =
      [ EvBuild (build_args config s w);
        EvStart (wallet_id h);
        EvState (wallet_id h);
        EvLog (info ("Wallet seed is: " +:+ s));
        EvLog (info ("Wallet address is: " +:+ address state));
        EvLog (info ("Wallet balance is: "
                     +:+ show_N (balance_or_zero (nativeToken sdk) state))) ].
Proof.
  rewrite buildWalletFromSeed_eq. cbv zeta.
  change (mkBuildArgs (indexer config) (indexerWS config) (proofServer config)
            (node config) s (networkId w) "warn")
    with (build_args config s w).
  destruct (buildFromSeed sdk _) as [e|g] eqn:B; [discriminate|].
  destruct (w_start g) as [e|]; [discriminate|].
  rewrite !next_subscription_emit by reflexivity.
  destruct (firstValueFrom _) as [state|e|] eqn:F; [|discriminate|discriminate].
  intros E. assert (g = h) as -> by congruence.
  apply firstValueFrom_fulfilled in F. destruct F as (t & more & F).
  exists t, state, more.
  split; [reflexivity|]. split; [exact F|].
  assert (w' = snd (Ret h, w')) as -> by reflexivity.
  rewrite <- E. cbn [snd]. since_trace.
Qed.

(** C8, as amended. Let the address of every snapshot of a wallet be a
    function [derive] of the network identifier and the seed the wallet
    was built with, for the SDK of the first build and for the SDK of the
    second, and let the process-wide identifier be the same at both builds.
    If [buildFreshWallet] returns a wallet and the seed [s], and
    [buildWalletFromSeed] called with the same configuration and [s]
    returns a wallet, both report the same address, [derive] of that
    identifier and [s]: each logs the seed, then that address, then a
    balance. *)
Theorem same_seed_same_identifier_same_address
  (derive : NetworkId -> string -> string) (sdk1 sdk2 : Sdk) (config : Config)
  (w1 w2 : World) (h1 h2 : WalletHandle) (s : string) (w1' w2' : World) :
  reports_address sdk1 derive ->
  reports_address sdk2 derive ->
  networkId w1 = networkId w2 ->
  buildFreshWallet sdk1 config w1 = (Ret (h1, s), w1') ->
  buildWalletFromSeed sdk2 config s w2 = (Ret h2, w2') ->
  exists a b1 b2,
    a = derive (networkId w1) s /\
    logged_of (since w1 w1') =
      [ info ("Wallet seed is: " +:+ s);
        info ("Wallet address is: " +:+ a);
        info ("Wallet balance is: " +:+ show_N b1) ] /\
    logged_of (since w2 w2') =
      [ info ("Wallet seed is: " +:+ s);
        info ("Wallet address is: " +:+ a);
        info ("Wallet balance is: " +:+ show_N b2) ].
Proof.
  intros Hd1 Hd2 Hid E1 E2.
  apply buildFreshWallet_returns in E1.
  destruct E1 as (t1 & st1 & more1 & B1 & F1 & Hs & T1).
  apply buildWalletFromSeed_returns in E2.
  destruct E2 as (t2 & st2 & more2 & B2 & F2 & T2).
  assert (address st1 = derive (networkId w1) s) as A1.
  { rewrite Hs. unfold next_subscription in F1.
    eapply (Hd1 _ _ _ t1 _ B1). rewrite F1. left. reflexivity. }
  assert (address st2 = derive (networkId w1) s) as A2.
  { rewrite Hid. unfold next_subscription in F2.
    eapply (Hd2 _ _ _ t2 _ B2). rewrite F2. left. reflexivity. }
  exists (derive (networkId w1) s), (balance_or_zero (nativeToken sdk1) st1),
         (balance_or_zero (nativeToken sdk2) st2).
  split; [reflexivity|]. split.
  - rewrite T1, A1. reflexivity.
  - rewrite T2, A2. reflexivity.
Qed.

Lemma encoding_sdk_reports_address :
  reports_address encoding_sdk encoded_address.
Proof.
  intros args h n t state Hb Hin. injection Hb as <-.
  cbn in Hin. destruct Hin as [E|[]]. injection E as _ <-. reflexivity.
Defined.

Lemma same_seed_same_identifier_same_address_witness :
  exists a b1 b2,
    a = encoded_address Undeployed (fresh_seed encoding_sdk initial_world) /\
    logged_of (since initial_world
                 (snd (buildFreshWallet encoding_sdk (endpoints_of standalone)
                         initial_world))) =
      [ info ("Wallet seed is: " +:+ fresh_seed encoding_sdk initial_world);
        info ("Wallet address is: " +:+ a);
        info ("Wallet balance is: " +:+ show_N b1) ] /\
    logged_of (since initial_world
                 (snd (buildWalletFromSeed encoding_sdk (endpoints_of standalone)
                         (fresh_seed encoding_sdk initial_world) initial_world))) =
      [ info ("Wallet seed is: " +:+ fresh_seed encoding_sdk initial_world);
        info ("Wallet address is: " +:+ a);
        info ("Wallet balance is: " +:+ show_N b2) ].
Proof.
  apply (same_seed_same_identifier_same_address encoded_address
           encoding_sdk encoding_sdk
           (endpoints_of standalone) initial_world initial_world
           (encoding_wallet (build_args (endpoints_of standalone)
                               (fresh_seed encoding_sdk initial_world)
                               initial_world))
           (encoding_wallet (build_args (endpoints_of standalone)
                               (fresh_seed encoding_sdk initial_world)
                               initial_world))
           (fresh_seed encoding_sdk initial_world) _ _
           encoding_sdk_reports_address encoding_sdk_reports_address
           eq_refl eq_refl eq_refl).
Defined.

(** C8 as stated fails: with an SDK that derives the address from the
    identifier and the seed, a process builds a fresh wallet for the
    standalone configuration, constructs the testnet configuration, and
    rebuilds from the same configuration object and seed; the first build
    reports the address encoded for [Undeployed], the rebuild the one
    encoded for [TestNet]. *)
Lemma rebuild_under_other_identifier_reports_other_address :
  reports_address encoding_sdk encoded_address /\
  fst (rebuild_after_other_config encoding_sdk initial_world) =
    Ret (fresh_seed encoding_sdk initial_world) /\
  logged_of (trace (snd (rebuild_after_other_config encoding_sdk initial_world))) =
    [ info ("Wallet seed is: " +:+ fresh_seed encoding_sdk initial_world);
      info ("Wallet address is: "
            +:+ encoded_address Undeployed (fresh_seed encoding_sdk initial_world));
      info "Wallet balance is: 0";
      info ("Wallet seed is: " +:+ fresh_seed encoding_sdk initial_world);
      info ("Wallet address is: "
            +:+ encoded_address TestNet (fresh_seed encoding_sdk initial_world));
      info "Wallet balance is: 0" ] /\
  encoded_address Undeployed (fresh_seed encoding_sdk initial_world) <>
    encoded_address TestNet (fresh_seed encoding_sdk initial_world).
Proof.
  split; [exact encoding_sdk_reports_address|].
  split; [vm_compute; reflexivity|].
  split; [vm_compute; reflexivity|].
  vm_compute. intros E. discriminate E.
Qed.

Lemma construct_eq (c : ConfigClass) (w : World) :
  construct c w =
    (Ret tt, emit (EvSetNetworkId (class_id c)) (with_networkId (class_id c) w)).
Proof. destruct c; reflexivity. Qed.

Lemma construct_all_snoc (cs : list ConfigClass) (c : ConfigClass) (w : World) :
  fst (construct_all cs w) = Ret tt /\
  construct_all (cs ++ [c]) w = construct c (snd (construct_all cs w)).
Proof.
  revert w. induction cs as [|c0 cs IH]; intros w.
  - split; [reflexivity|]. cbn [app construct_all]. unfold bind, ret.
    cbn [snd]. rewrite construct_eq. reflexivity.
  - cbn [app construct_all]. unfold bind. rewrite construct_eq.
    destruct (IH (emit (EvSetNetworkId (class_id c0))
                    (with_networkId (class_id c0) w))) as [H1 H2].
    split; [exact H1|exact H2].
Qed.

Lemma construct_all_writes (cs : list ConfigClass) (w : World) :
  trace (snd (construct_all cs w)) =
    trace w ++ map EvSetNetworkId (map class_id cs).
Proof.
  revert w. induction cs as [|c cs IH]; intros w.
  - cbn. rewrite app_nil_r. reflexivity.
  - cbn [construct_all map]. unfold bind. rewrite construct_eq.
    rewrite IH, trace_emit. cbn [trace with_networkId].
    rewrite <- app_assoc. reflexivity.
Qed.

Lemma set_ids_of_writes (ids : list NetworkId) :
  set_ids_of (map EvSetNetworkId ids) = ids.
Proof.
  induction ids as [|i ids IH]; [reflexivity|].
  unfold set_ids_of in *. cbn [map pick]. rewrite IH. reflexivity.
Qed.

Lemma count_set_network_writes (ids : list NetworkId) :
  count_events is_set_network (map EvSetNetworkId ids) = length ids.
Proof.
  unfold count_events. induction ids as [|i ids IH]; [reflexivity|].
  cbn [map List.filter is_set_network length]. rewrite IH. reflexivity.
Qed.

(** C9. Constructing a [StandaloneConfig], a [TestnetRemoteConfig] or a
    [LocalTestConfig] sets the process-wide identifier, whatever it was, to
    [Undeployed], [TestNet] and [Undeployed]. After any sequence of
    constructions the identifier is that of the configuration constructed
    last (the initial one when none was), and it has been written once per
    construction, in order: so it has been written at most once exactly
    when at most one configuration was constructed. *)
Theorem config_construction_overwrites_network_id
  (cs : list ConfigClass) (w : World) :
  networkId (snd (StandaloneConfig w)) = Undeployed /\
  networkId (snd (TestnetRemoteConfig w)) = TestNet /\
  networkId (snd (LocalTestConfig w)) = Undeployed /\
  networkId (snd ((TestnetRemoteConfig ;;; LocalTestConfig) w)) = Undeployed /\
  networkId (snd ((StandaloneConfig ;;; TestnetRemoteConfig) w)) = TestNet /\
  fst (construct_all cs w) = Ret tt /\
  networkId (snd (construct_all cs w)) =
    match last cs with
    | Some c => class_id c
    | None => networkId w
    end /\
  set_ids_of (since w (snd (construct_all cs w))) = map class_id cs /\
  ((count_events is_set_network (since w (snd (construct_all cs w))) <= 1)%nat
   <-> (length cs <= 1)%nat).
Proof.
  repeat (split; [reflexivity|]).
  assert (since w (snd (construct_all cs w)) =
          map EvSetNetworkId (map class_id cs)) as Hs.
  { apply since_app. apply construct_all_writes. }
  split; [|split; [|split]].
  - clear Hs. destruct cs as [|c cs _] using rev_ind; [reflexivity|].
    rewrite (proj2 (construct_all_snoc cs c w)), construct_eq. reflexivity.
  - clear Hs. destruct cs as [|c cs _] using rev_ind; [reflexivity|].
    rewrite last_snoc.
    rewrite (proj2 (construct_all_snoc cs c w)), construct_eq. reflexivity.
  - rewrite Hs. apply set_ids_of_writes.
  - rewrite Hs, count_set_network_writes, length_map. reflexivity.
Qed.

Lemma config_construction_overwrites_network_id_witness :
  networkId (snd (construct_all [NewTestnetRemote; NewLocalTest] initial_world))
    = Undeployed /\
  (count_events is_set_network
     (since initial_world
        (snd (construct_all [NewTestnetRemote] initial_world))) <= 1)%nat.
Proof.
  split.
  - apply (proj1 (proj2 (proj2 (proj2 (proj2 (proj2 (proj2
             (config_construction_overwrites_network_id
                [NewTestnetRemote; NewLocalTest] initial_world)))))))).
  - apply (proj2 (proj2 (proj2 (proj2 (proj2 (proj2 (proj2 (proj2
             (config_construction_overwrites_network_id
                [NewTestnetRemote] initial_world))))))))).
    cbn. lia.
Defined.

(** * Further properties *)

(** ** More on the fund-wait protocol *)

Lemma fundwait_run_throttled (nt : string) (th : Throttle)
      (evs : list (Z * WalletState)) :
  fundwait_run nt (Waiting th) (throttleTime th evs) =
    fundwait_run nt (Waiting th) evs.
Proof.
  revert th. induction evs as [|[t state] rest IH]; intros th; [reflexivity|].
  cbn [throttleTime fundwait_run]. rewrite fundwait_step_waiting.
  destruct (throttle_passes th t) eqn:Hp.
  - cbn [fundwait_run]. rewrite fundwait_step_waiting, Hp.
    destruct (ready nt state).
    + rewrite !fundwait_run_resolved. reflexivity.
    + rewrite IH. reflexivity.
  - rewrite IH. destruct (fundwait_run nt (Waiting th) rest). reflexivity.
Qed.

Lemma fundwait_run_log (nt : string) (th : Throttle)
      (evs : list (Z * WalletState)) :
  snd (fundwait_run nt (Waiting th) evs) =
    map (fun ev => tap_log (snd ev))
        (upto_first (fun ev => ready nt (snd ev)) (throttleTime th evs)).
Proof.
  revert th. induction evs as [|[t state] rest IH]; intros th; [reflexivity|].
  cbn [throttleTime fundwait_run]. rewrite fundwait_step_waiting.
  destruct (throttle_passes th t).
  - cbn [upto_first snd]. destruct (ready nt state).
    + rewrite fundwait_run_resolved. reflexivity.
    + specialize (IH (throttle_start t)).
      destruct (fundwait_run nt (Waiting (throttle_start t)) rest).
      cbn [snd map app] in *. rewrite IH. reflexivity.
  - specialize (IH th). destruct (fundwait_run nt (Waiting th) rest).
    cbn [snd app] in *. exact IH.
Qed.

(** X1. The protocol sees a stream only through the throttle: run on the
    snapshots that [throttleTime] lets through, it ends in the same state
    with the same log as on the whole stream; and the log is the tap line
    of those snapshots, in order, up to and including the first that is
    synced and funded. *)
Theorem waitForFunds_factors_through_throttle
  (nt : string) (s : Stream WalletState) :
  waitForFunds nt (mkStream (throttleTime None (events s)) (ending s)) =
    waitForFunds nt s /\
  snd (waitForFunds nt s) =
    map (fun ev => tap_log (snd ev))
        (upto_first (fun ev => ready nt (snd ev))
                    (throttleTime None (events s))).
Proof.
  split.
  - unfold waitForFunds. cbn [events ending].
    rewrite fundwait_run_throttled. reflexivity.
  - rewrite <- fundwait_run_log. unfold waitForFunds.
    destruct (fundwait_run nt (Waiting None) (events s)) as [st out].
    destruct st; [destruct (ending s)|]; reflexivity.
Qed.

(** X2. Without a snapshot behind the throttle that is synced and funded,
    the promise follows the stream: it stays pending for as long as the
    stream stays open (there is no timeout), it rejects with [EmptyError]
    when the stream completes, and with the stream's error when the stream
    fails; and every snapshot the throttle let through has been logged. *)
Theorem waitForFunds_without_funds
  (nt : string) (s : Stream WalletState) :
  first_evaluated_ready nt None (events s) = None ->
  fst (waitForFunds nt s) =
    match ending s with
    | StillOpen => Pending
    | Completed => Rejected EmptyError
    | Failed e => Rejected e
    end /\
  snd (waitForFunds nt s) =
    map (fun ev => tap_log (snd ev)) (throttleTime None (events s)).
Proof.
  intros Hnone.
  assert (upto_first (fun ev => ready nt (snd ev)) (throttleTime None (events s))
          = throttleTime None (events s)) as Hall.
  { unfold first_evaluated_ready in Hnone.
    induction (throttleTime None (events s)) as [|ev l IH]; [reflexivity|].
    cbn [List.find upto_first] in *.
    destruct (ready nt (snd ev)); [discriminate Hnone|].
    rewrite IH by exact Hnone. reflexivity. }
  split.
  - pose proof (fundwait_run_first_evaluated nt None (events s)) as H.
    rewrite Hnone in H. destruct H as [th' H].
    unfold waitForFunds.
    destruct (fundwait_run nt (Waiting None) (events s)) as [st out].
    cbn [fst] in H. subst st. destruct (ending s); reflexivity.
  - rewrite <- Hall, <- fundwait_run_log. unfold waitForFunds.
    destruct (fundwait_run nt (Waiting None) (events s)) as [st out].
    destruct st; [destruct (ending s)|]; reflexivity.
Qed.

Lemma waitForFunds_without_funds_witness :
  fst (waitForFunds sample_token
         (mkStream [ (0, sample_state catching_up (Some 9%N));
                     (30000, sample_state in_sync None) ] Completed)) =
    Rejected EmptyError.
Proof.
  apply (proj1 (waitForFunds_without_funds sample_token
                  (mkStream [ (0, sample_state catching_up (Some 9%N));
                              (30000, sample_state in_sync None) ] Completed)
                  eq_refl)).
Defined.

Lemma throttle_budget_step (lo hi u t : Z) :
  lo <= t <= hi -> u <= t ->
  1 + (if hi <? t + 10000 then 0 else (hi - Z.max (t + 10000) lo) / 10000 + 1)
    <= (hi - Z.max u lo) / 10000 + 1.
Proof.
  intros Ht Hu.
  assert (0 <= (hi - Z.max u lo) / 10000) as H0
      by (apply Z.div_pos; lia).
  destruct (Z.ltb_spec hi (t + 10000)) as [Hlt|Hge]; [lia|].
  replace (Z.max (t + 10000) lo) with (t + 10000) by lia.
  replace (hi - (t + 10000)) with ((hi - t) + (-1) * 10000) by lia.
  rewrite Z.div_add by lia.
  assert ((hi - t) / 10000 <= (hi - Z.max u lo) / 10000) as Hm
      by (apply Z.div_le_mono; lia).
  lia.
Qed.

Lemma fundwait_run_budget (nt : string) (lo hi : Z)
      (evs : list (Z * WalletState)) :
  lo <= hi ->
  Forall (fun ev => lo <= fst ev <= hi) evs ->
  forall th,
    Z.of_nat (length (snd (fundwait_run nt (Waiting th) evs))) <=
      match th with
      | None => (hi - lo) / 10000 + 1
      | Some u => if hi <? u then 0 else (hi - Z.max u lo) / 10000 + 1
      end.
Proof.
  intros Hlh.
  induction 1 as [|[t state] rest Ht _ IH]; intros th.
  - cbn [fundwait_run snd length Z.of_nat].
    destruct th as [u|].
    + destruct (Z.ltb_spec hi u); [lia|].
      assert (0 <= (hi - Z.max u lo) / 10000) by (apply Z.div_pos; lia). lia.
    + assert (0 <= (hi - lo) / 10000) by (apply Z.div_pos; lia). lia.
  - cbn [fst] in Ht. cbn [fundwait_run]. rewrite fundwait_step_waiting.
    assert (forall u, u <= t ->
      Z.of_nat (length (snd
        (if ready nt state
         then let (st2, out2) :=
                fundwait_run nt (Resolved (balance_or_zero nt state)) rest in
              (st2, [tap_log state] ++ out2)
         else let (st2, out2) :=
                fundwait_run nt (Waiting (throttle_start t)) rest in
              (st2, [tap_log state] ++ out2))))
      <= (hi - Z.max u lo) / 10000 + 1) as Hpass.
    { intros u Hu.
      pose proof (throttle_budget_step lo hi u t Ht Hu) as Hb.
      destruct (ready nt state).
      - rewrite fundwait_run_resolved. cbn [snd app length].
        assert (0 <= (hi - Z.max u lo) / 10000) by (apply Z.div_pos; lia).
        lia.
      - specialize (IH (throttle_start t)). unfold throttle_start in *.
        change THROTTLE_MS with 10000 in *.
        destruct (fundwait_run nt (Waiting (Some (t + 10000))) rest) as [st2 out2].
        cbn [snd app length] in *.
        revert Hb IH. destruct (Z.ltb_spec hi (t + 10000)); intros Hb IH; lia. }
    destruct th as [u|]; cbn [throttle_passes].
    + destruct (Z.leb_spec u t) as [Hle|Hgt].
      * destruct (Z.ltb_spec hi u); [lia|].
        destruct (ready nt state); apply (Hpass u Hle).
      * specialize (IH (Some u)).
        destruct (fundwait_run nt (Waiting (Some u)) rest) as [st2 out2].
        cbn [snd app] in *. exact IH.
    + specialize (Hpass lo (proj1 Ht)).
      replace (Z.max lo lo) with lo in Hpass by lia.
      destruct (ready nt state); exact Hpass.
Qed.

(** X3. The throttle bounds the log: over a stream whose snapshots all
    arrive between [lo] and [hi] (in any order), the protocol evaluates and
    logs at most one snapshot per started ten seconds of that span, that
    is at most [(hi - lo) / 10000 + 1] of them, however many arrive. *)
Theorem waitForFunds_log_volume
  (nt : string) (s : Stream WalletState) (lo hi : Z) :
  lo <= hi ->
  Forall (fun ev => lo <= fst ev <= hi) (events s) ->
  Z.of_nat (length (snd (waitForFunds nt s))) <= (hi - lo) / 10000 + 1.
Proof.
  intros Hlh HF.
  pose proof (fundwait_run_budget nt lo hi (events s) Hlh HF None) as H.
  unfold waitForFunds.
  destruct (fundwait_run nt (Waiting None) (events s)) as [st out].
  destruct st; [destruct (ending s)|]; exact H.
Qed.

Lemma waitForFunds_log_volume_witness :
  Z.of_nat (length (snd (waitForFunds sample_token
                           (mkStream sample_burst StillOpen)))) <= 1.
Proof.
  apply (waitForFunds_log_volume sample_token
           (mkStream sample_burst StillOpen) 500 10499); [lia|].
  unfold sample_burst. cbn [events]. repeat constructor; cbn [fst]; lia.
Defined.

Lemma fundwait_run_throttle_invariant (nt : string) (m : Z)
      (evs : list (Z * WalletState)) :
  Forall (fun ev => fst ev <= m) evs ->
  forall th,
    match th with Some u => u <= m + 10000 | None => True end ->
    match fst (fundwait_run nt (Waiting th) evs) with
    | Waiting (Some u) => u <= m + 10000
    | _ => True
    end.
Proof.
  induction 1 as [|[t state] rest Ht _ IH]; intros th Hth.
  - exact Hth.
  - cbn [fst] in Ht. cbn [fundwait_run]. rewrite fundwait_step_waiting.
    destruct (throttle_passes th t).
    + destruct (ready nt state).
      * rewrite fundwait_run_resolved. exact I.
      * assert (t + 10000 <= m + 10000) as Hn by lia.
        specialize (IH (throttle_start t) Hn).
        destruct (fundwait_run nt (Waiting (throttle_start t)) rest).
        exact IH.
    + specialize (IH th Hth). destruct (fundwait_run nt (Waiting th) rest).
      exact IH.
Qed.

Lemma fundwait_run_all_ready (nt : string) (post : list (Z * WalletState)) :
  Forall (fun ev => ready nt (snd ev) = true) post ->
  forall th t state,
    In (t, state) post -> throttle_passes th t = true ->
    exists b, fst (fundwait_run nt (Waiting th) post) = Resolved b.
Proof.
  induction 1 as [|[t0 s0] rest Hr _ IH]; intros th t state Hin Hpass.
  - destruct Hin.
  - cbn [snd] in Hr. cbn [fundwait_run]. rewrite fundwait_step_waiting, Hr.
    destruct (throttle_passes th t0) eqn:Hp0.
    + rewrite fundwait_run_resolved. eauto.
    + destruct Hin as [E|Hin].
      * inversion E; subst. rewrite Hpass in Hp0. discriminate Hp0.
      * destruct (IH th t state Hin Hpass) as [b Hb].
        destruct (fundwait_run nt (Waiting th) rest). eauto.
Qed.

(** X4. The throttle cannot keep the protocol from completing once the
    funds stay: if from some point of the stream on every snapshot is
    synced and funded, and one of them arrives ten seconds or more after
    everything that came before that point, the protocol resolves, with a
    positive balance. *)
Theorem waitForFunds_resolves_once_funds_stay
  (nt : string) (pre post : list (Z * WalletState)) (e : StreamEnd)
  (m t : Z) (state : WalletState) :
  Forall (fun ev => fst ev <= m) pre ->
  Forall (fun ev => ready nt (snd ev) = true) post ->
  In (t, state) post ->
  m + 10000 <= t ->
  exists b,
    fst (waitForFunds nt (mkStream (pre ++ post) e)) = Fulfilled b /\
    (0 < b)%N.
Proof.
  intros Hpre Hpost Hin Ht.
  assert (exists b,
    fst (fundwait_run nt (Waiting None) (pre ++ post)) = Resolved b) as [b Hb].
  { rewrite fundwait_run_app.
    pose proof (fundwait_run_throttle_invariant nt m pre Hpre None I) as Hinv.
    destruct (fundwait_run nt (Waiting None) pre) as [st1 out1].
    cbn [fst] in Hinv. destruct st1 as [th|b].
    - assert (throttle_passes th t = true) as Hp.
      { destruct th as [u|]; [|reflexivity]. cbn [throttle_passes].
        apply Z.leb_le. lia. }
      destruct (fundwait_run_all_ready nt post Hpost th t state Hin Hp)
        as [b Hb].
      destruct (fundwait_run nt (Waiting th) post). eauto.
    - rewrite fundwait_run_resolved. eauto. }
  exists b.
  assert (fst (waitForFunds nt (mkStream (pre ++ post) e)) = Fulfilled b) as Hf.
  { apply waitForFunds_fulfilled_iff. exact Hb. }
  split; [exact Hf|]. eapply waitForFunds_fulfilled_positive; exact Hf.
Qed.

Lemma waitForFunds_resolves_once_funds_stay_witness :
  exists b,
    fst (waitForFunds sample_token
           (mkStream ([ (0, sample_state catching_up None) ]
                      ++ [ (2000, sample_state in_sync (Some 4%N));
                           (12000, sample_state in_sync (Some 6%N)) ])
                     StillOpen)) = Fulfilled b /\
    (0 < b)%N.
Proof.
  apply (waitForFunds_resolves_once_funds_stay sample_token
           [ (0, sample_state catching_up None) ]
           [ (2000, sample_state in_sync (Some 4%N));
             (12000, sample_state in_sync (Some 6%N)) ]
           StillOpen 0 12000 (sample_state in_sync (Some 6%N))).
  - constructor; [cbn [fst]; lia|constructor].
  - constructor; [vm_compute; reflexivity|].
    constructor; [vm_compute; reflexivity|constructor].
  - right. left. reflexivity.
  - lia.
Defined.

(** ** More on the builders *)

(** [buildFreshWallet] is [buildWalletFromSeed] on a seed it draws. *)
Lemma buildFreshWallet_as_buildWalletFromSeed
  (sdk : Sdk) (config : Config) (w : World) :
  buildFreshWallet sdk config w =
    match buildWalletFromSeed sdk config (fresh_seed sdk w)
            (with_drawn (drawn w + 32)%nat w) with
    | (Ret h, w') => (Ret (h, fresh_seed sdk w), w')
    | (Throw e, w') => (Throw e, w')
    | (Exit c, w') => (Exit c, w')
    | (Blocked, w') => (Blocked, w')
    end.
Proof.
  rewrite buildFreshWallet_eq, buildWalletFromSeed_eq. cbv zeta.
  change (toHex (map (getRandomValues sdk) (seq (drawn w) 32)))
    with (fresh_seed sdk w).
  change (networkId (with_drawn (drawn w + 32)%nat w)) with (networkId w).
  destruct (buildFromSeed sdk _) as [e|h]; [reflexivity|].
  destruct (w_start h) as [e|]; [reflexivity|].
  destruct (firstValueFrom _) as [state|e|]; reflexivity.
Qed.

(** X5. [buildFreshWallet] does what [buildWalletFromSeed] does on the
    seed it has drawn, in the world where the 32 bytes are drawn: it ends
    the same way, with the same events and log, and returns the same
    handle, paired with the seed. *)
Theorem buildFreshWallet_is_buildWalletFromSeed_on_fresh_seed
  (sdk : Sdk) (config : Config) (w : World) :
  let fresh := buildFreshWallet sdk config w in
  let seeded :=
    buildWalletFromSeed sdk config (fresh_seed sdk w)
      (with_drawn (drawn w + 32)%nat w) in
  snd fresh = snd seeded /\
  since w (snd fresh) = since w (snd seeded) /\
  (forall h, fst seeded = Ret h <-> fst fresh = Ret (h, fresh_seed sdk w)) /\
  (forall e, fst seeded = Throw e <-> fst fresh = Throw e) /\
  (fst seeded = Blocked <-> fst fresh = Blocked).
Proof.
  intros fresh seeded. unfold fresh.
  rewrite buildFreshWallet_as_buildWalletFromSeed. fold seeded.
  destruct seeded as [[h|e|c|] w']; cbn [fst snd].
  all: split; [reflexivity|]; split; [reflexivity|].
  all: split; [intros h0; split; intros E; inversion E; reflexivity|].
  all: split; [intros e0; split; intros E; inversion E; reflexivity|].
  all: split; intros E; inversion E; reflexivity.
Qed.

Lemma buildWalletFromSeed_trace
  (sdk : Sdk) (config : Config) (seed : string) (w : World) :
  exists rest,
    trace (snd (buildWalletFromSeed sdk config seed w)) =
      trace w ++ EvBuild (build_args config seed w) :: rest /\
    builds_of rest = [] /\
    List.filter is_close rest = [] /\
    List.filter is_set_network rest = [].
Proof.
  rewrite buildWalletFromSeed_eq. cbv zeta.
  change (mkBuildArgs (indexer config) (indexerWS config) (proofServer config)
            (node config) seed (networkId w) "warn")
    with (build_args config seed w).
  destruct (buildFromSeed sdk _) as [e|h].
  { eexists. cbn [snd]. world_norm. rewrite trace_emit_all.
    repeat split. }
  destruct (w_start h) as [e|].
  { eexists. cbn [snd]. world_norm. rewrite trace_emit_all.
    repeat split. }
  destruct (firstValueFrom _) as [state|e|];
    eexists; cbn [snd]; world_norm; rewrite trace_emit_all;
    repeat split.
Qed.

Lemma filter_logs (p : Event -> bool) (out : list LogCall) :
  (forall c, p (EvLog c) = false) -> List.filter p (map EvLog out) = [].
Proof.
  intros Hp. induction out as [|c rest IH]; [reflexivity|].
  cbn [map List.filter]. rewrite Hp. exact IH.
Qed.

Lemma buildWalletAndWaitForFunds_no_close
  (sdk : Sdk) (config : Config) (seed : string) (w : World) :
  List.filter is_close
    (since w (snd (buildWalletAndWaitForFunds sdk config seed w))) = [] /\
  List.filter is_set_network
    (since w (snd (buildWalletAndWaitForFunds sdk config seed w))) = [].
Proof.
  rewrite buildWalletAndWaitForFunds_eq. cbv zeta.
  destruct (buildFromSeed sdk _) as [e|h].
  { cbn [snd]. world_norm. rewrite (since_emit_all w w _ eq_refl).
    split; reflexivity. }
  destruct (w_start h) as [e|].
  { cbn [snd]. world_norm. rewrite (since_emit_all w w _ eq_refl).
    split; reflexivity. }
  destruct (firstValueFrom _) as [state|e|].
  2,3: cbn [snd]; world_norm; rewrite (since_emit_all w w _ eq_refl);
       split; reflexivity.
  destruct (balances state !! nativeToken sdk) as [[|p]|]; cbn [N.eqb];
    try destruct (fst (waitForFunds _ _));
    cbn [snd]; world_norm; rewrite (since_emit_all w w _ eq_refl);
    cbn [List.filter is_close is_set_network];
    rewrite ?List.filter_app, ?filter_logs by reflexivity;
    split; reflexivity.
Qed.

(** X6. No builder closes a wallet or writes the network identifier,
    however it ends: a wallet that the SDK built and whose start or first
    snapshot then fails is left open by [buildWalletFromSeed],
    [buildWalletAndWaitForFunds], [buildFreshWallet] and [setup]. *)
Theorem builders_never_close
  (sdk : Sdk) (config : Config) (sd : string)
  (tc : TestConfiguration) (w : World) :
  let quiet (w' : World) :=
    List.filter is_close (since w w') = [] /\
    List.filter is_set_network (since w w') = [] /\
    networkId w' = networkId w in
  quiet (snd (buildWalletFromSeed sdk config sd w)) /\
  quiet (snd (buildWalletAndWaitForFunds sdk config sd w)) /\
  quiet (snd (buildFreshWallet sdk config w)) /\
  quiet (snd (setup sdk tc w)).
Proof.
  cbv zeta.
  split; [|split; [|split]].
  - destruct (buildWalletFromSeed_trace sdk config sd w)
      as (rest & Htr & _ & Hc & Hs).
    rewrite (since_app _ _ _ Htr). cbn [List.filter is_close is_set_network].
    split; [exact Hc|]. split; [exact Hs|].
    rewrite buildWalletFromSeed_eq. cbv zeta.
    destruct (buildFromSeed sdk _) as [e|h]; [reflexivity|].
    destruct (w_start h) as [e|]; [reflexivity|].
    destruct (firstValueFrom _) as [state|e|]; reflexivity.
  - destruct (buildWalletAndWaitForFunds_no_close sdk config sd w) as [Hc Hs].
    split; [exact Hc|]. split; [exact Hs|].
    rewrite buildWalletAndWaitForFunds_eq. cbv zeta.
    destruct (buildFromSeed sdk _) as [e|h]; [reflexivity|].
    destruct (w_start h) as [e|]; [reflexivity|].
    destruct (firstValueFrom _) as [state|e|]; [|reflexivity|reflexivity].
    destruct (balances state !! nativeToken sdk) as [[|p]|]; cbn [N.eqb];
      try destruct (fst (waitForFunds _ _)); reflexivity.
  - destruct (buildFreshWallet_frame sdk config w)
      as (_ & _ & Hn & _ & _ & evs & Htr & _ & _ & _ & Hc & Hs).
    rewrite (since_app _ _ _ Htr). cbn [List.filter is_close is_set_network].
    split; [exact Hc|]. split; [exact Hs|exact Hn].
  - rewrite setup_eq.
    destruct (buildWalletAndWaitForFunds_no_close sdk (dappConfig tc) (seed tc)
                (emit (EvLog (info "Setting up wallet")) w)) as [Hc Hs].
    destruct (buildWalletAndWaitForFunds_trace sdk (dappConfig tc) (seed tc)
                (emit (EvLog (info "Setting up wallet")) w))
      as (rest & Htr & _).
    rewrite (since_app _ _ _ Htr) in Hc, Hs.
    rewrite trace_emit, <- app_assoc in Htr. cbn [app] in Htr.
    assert (networkId (snd (buildWalletAndWaitForFunds sdk (dappConfig tc)
                              (seed tc)
                              (emit (EvLog (info "Setting up wallet")) w)))
            = networkId w) as Hn.
    { rewrite buildWalletAndWaitForFunds_eq. cbv zeta.
      destruct (buildFromSeed sdk _) as [e|h]; [reflexivity|].
      destruct (w_start h) as [e|]; [reflexivity|].
      destruct (firstValueFrom _) as [state|e|]; [|reflexivity|reflexivity].
      destruct (balances state !! nativeToken sdk) as [[|p]|]; cbn [N.eqb];
        try destruct (fst (waitForFunds _ _)); reflexivity. }
    destruct (buildWalletAndWaitForFunds sdk (dappConfig tc) (seed tc)
                (emit (EvLog (info "Setting up wallet")) w))
      as [[h|e|c|] w1]; cbn [snd] in *.
    all: unfold since; cbn [trace with_this_wallet networkId];
      rewrite Htr, drop_app_length;
      cbn [List.filter is_close is_set_network] in *;
      (split; [exact Hc|]); (split; [exact Hs|exact Hn]).
Qed.

Lemma buildFreshWallet_is_buildWalletFromSeed_on_fresh_seed_witness :
  fst (buildFreshWallet (stub_sdk (inl sample_error))
         (endpoints_of testnet) initial_world) = Throw sample_error.
Proof.
  apply (proj1 (proj1 (proj2 (proj2 (proj2
           (buildFreshWallet_is_buildWalletFromSeed_on_fresh_seed
              (stub_sdk (inl sample_error)) (endpoints_of testnet)
              initial_world)))) sample_error)).
  reflexivity.
Defined.

(** X7. How [buildWalletFromSeed] fails. When the SDK's construction call
    rejects, it throws that error and has done nothing else. When the
    wallet is built and [start] throws, it throws that error without
    having subscribed to the state. When the wallet is started and its
    state stream has no snapshot, it throws [EmptyError] if the stream
    completes and the stream's error if it fails, and it never returns
    while the stream stays open. In none of these cases has it logged
    anything. *)
Theorem buildWalletFromSeed_failures
  (sdk : Sdk) (config : Config) (sd : string) (w : World) :
  let args := build_args config sd w in
  let r := buildWalletFromSeed sdk config sd w in
  (forall e,
      buildFromSeed sdk args = inl e ->
      fst r = Throw e /\ since w (snd r) = [ EvBuild args ]) /\
  (forall h e,
      buildFromSeed sdk args = inr h ->
      w_start h = Some e ->
      fst r = Throw e /\
      since w (snd r) = [ EvBuild args; EvStart (wallet_id h) ]) /\
  (forall h,
      buildFromSeed sdk args = inr h ->
      w_start h = None ->
      events (next_subscription h w) = [] ->
      fst r = match ending (next_subscription h w) with
              | StillOpen => Blocked
              | Completed => Throw EmptyError
              | Failed e => Throw e
              end /\
      since w (snd r) =
        [ EvBuild args; EvStart (wallet_id h); EvState (wallet_id h) ]).
Proof.
  intros args r. unfold r, args, build_args.
  rewrite buildWalletFromSeed_eq. cbv zeta.
  split; [|split].
  - intros e Hb. rewrite Hb. cbn [fst snd].
    split; [reflexivity|]. since_trace.
  - intros h e Hb Hs. rewrite Hb, Hs. cbn [fst snd].
    split; [reflexivity|]. since_trace.
  - intros h Hb Hs Hev. rewrite Hb, Hs.
    rewrite !next_subscription_emit by reflexivity.
    unfold firstValueFrom. rewrite Hev.
    destruct (ending (next_subscription h w)); cbn [fst snd];
      (split; [reflexivity|]); since_trace.
Qed.

Lemma buildWalletFromSeed_failures_witness :
  fst (buildWalletFromSeed
         (stub_sdk (inr (stub_wallet None (mkStream [] Completed) None)))
         (endpoints_of standalone) GENESIS_MINT_WALLET_SEED initial_world) =
    Throw EmptyError /\
  fst (buildWalletFromSeed
         (stub_sdk (inr (stub_wallet (Some sample_error) funded_stream None)))
         (endpoints_of standalone) GENESIS_MINT_WALLET_SEED initial_world) =
    Throw sample_error.
Proof.
  split.
  - apply (proj2 (proj2 (buildWalletFromSeed_failures
             (stub_sdk (inr (stub_wallet None (mkStream [] Completed) None)))
             (endpoints_of standalone) GENESIS_MINT_WALLET_SEED initial_world))
             _ eq_refl eq_refl eq_refl).
  - apply (proj1 (proj2 (buildWalletFromSeed_failures
             (stub_sdk (inr (stub_wallet (Some sample_error) funded_stream None)))
             (endpoints_of standalone) GENESIS_MINT_WALLET_SEED initial_world))
             _ _ eq_refl eq_refl).
Defined.

(** X8. [buildWalletAndWaitForFunds] differs from [buildWalletFromSeed]
    only for a wallet whose first snapshot holds no native token: when
    every first snapshot the call can read has a positive balance (also
    when the call fails or waits before it reads one), the two functions
    end the same way, in the same world, with the same events and log. *)
Theorem buildWalletAndWaitForFunds_is_buildWalletFromSeed_when_funded
  (sdk : Sdk) (config : Config) (sd : string) (w : World) :
  (forall h t state more,
      buildFromSeed sdk (build_args config sd w) = inr h ->
      w_start h = None ->
      events (next_subscription h w) = (t, state) :: more ->
      (0 < balance_or_zero (nativeToken sdk) state)%N) ->
  buildWalletAndWaitForFunds sdk config sd w =
    buildWalletFromSeed sdk config sd w.
Proof.
  intros Hfunded.
  rewrite buildWalletAndWaitForFunds_eq, buildWalletFromSeed_eq. cbv zeta.
  unfold build_args in Hfunded.
  destruct (buildFromSeed sdk _) as [e|h] eqn:Hb; [reflexivity|].
  destruct (w_start h) as [e|] eqn:Hs; [reflexivity|].
  rewrite !next_subscription_emit by reflexivity.
  destruct (firstValueFrom (next_subscription h w)) as [state|e|] eqn:Hf;
    [|reflexivity|reflexivity].
  apply firstValueFrom_fulfilled in Hf. destruct Hf as (t & more & Hf).
  specialize (Hfunded h t state more eq_refl Hs Hf).
  unfold balance_or_zero in *.
  destruct (balances state !! nativeToken sdk) as [[|p]|];
    [lia|reflexivity|lia].
Qed.

Lemma buildWalletAndWaitForFunds_is_buildWalletFromSeed_when_funded_witness :
  buildWalletAndWaitForFunds
    (stub_sdk (inr (stub_wallet None funded_stream None)))
    (endpoints_of standalone) GENESIS_MINT_WALLET_SEED initial_world =
  buildWalletFromSeed
    (stub_sdk (inr (stub_wallet None funded_stream None)))
    (endpoints_of standalone) GENESIS_MINT_WALLET_SEED initial_world.
Proof.
  apply buildWalletAndWaitForFunds_is_buildWalletFromSeed_when_funded.
  intros h t state more Hb _ Hev.
  injection Hb as <-. cbn in Hev. injection Hev as _ <- _.
  vm_compute. reflexivity.
Defined.

(** ** More on how the pieces compose *)

(** X9. A builder takes the network identifier from the process, not from
    the configuration it is given: after a configuration for [n1] and then
    one for [n2] have been constructed, each builder called with the first
    configuration makes its construction call with the endpoints of [n1]
    and the identifier of [n2]. *)
Theorem builders_use_last_set_identifier
  (sdk : Sdk) (n1 n2 : NetworkType) (sd : string) (w : World) :
  let after (build : Config -> M unit) : list BuildArgs :=
    builds_of (since w (snd ((config <- getConfigForNetwork n1 ;;
                              getConfigForNetwork n2 ;;;
                              build config) w))) in
  let args (s : string) :=
    mkBuildArgs (indexer (endpoints_of n1)) (indexerWS (endpoints_of n1))
                (proofServer (endpoints_of n1)) (node (endpoints_of n1))
                s (id_of n2) "warn" in
  after (fun config => buildWalletFromSeed sdk config sd ;;; ret tt)
    = [ args sd ] /\
  after (fun config => buildWalletAndWaitForFunds sdk config sd ;;; ret tt)
    = [ args sd ] /\
  after (fun config => buildFreshWallet sdk config ;;; ret tt)
    = [ args (fresh_seed sdk w) ].
Proof.
  cbv zeta.
  set (w2 := emit (EvSetNetworkId (id_of n2))
               (with_networkId (id_of n2)
                  (emit (EvSetNetworkId (id_of n1))
                     (with_networkId (id_of n1) w)))).
  assert (trace w2 = trace w ++ [EvSetNetworkId (id_of n1);
                                 EvSetNetworkId (id_of n2)]) as Hw2.
  { unfold w2. rewrite trace_emit. cbn [trace with_networkId].
    rewrite trace_emit. cbn [trace with_networkId].
    rewrite <- app_assoc. reflexivity. }
  assert (forall A (build : Config -> M A) rest (a : BuildArgs),
    trace (snd (build (endpoints_of n1) w2)) = trace w2 ++ EvBuild a :: rest ->
    builds_of rest = [] ->
    builds_of (since w (snd ((config <- getConfigForNetwork n1 ;;
                              getConfigForNetwork n2 ;;;
                              build config ;;; ret tt) w)))
    = [a]) as Hgen.
  { intros A build rest a Htr Hrest.
    unfold bind at 1. rewrite getConfigForNetwork_eq.
    unfold bind at 1. rewrite getConfigForNetwork_eq. fold w2.
    assert (trace (snd ((build (endpoints_of n1) ;;; ret tt) w2)) =
            trace (snd (build (endpoints_of n1) w2))) as Hsame.
    { unfold bind, ret.
      destruct (build (endpoints_of n1) w2) as [[x|e|c|] w3]; reflexivity. }
    rewrite Hw2, <- app_assoc in Htr. cbn [app] in Htr.
    unfold since. rewrite Hsame, Htr, drop_app_length.
    unfold builds_of in *. cbn [pick]. rewrite Hrest. reflexivity. }
  split; [|split].
  - destruct (buildWalletFromSeed_trace sdk (endpoints_of n1) sd w2)
      as (rest & Htr & Hrest & _).
    apply (Hgen _ (fun config => buildWalletFromSeed sdk config sd) rest _ Htr Hrest).
  - destruct (buildWalletAndWaitForFunds_trace sdk (endpoints_of n1) sd w2)
      as (rest & Htr & Hrest).
    apply (Hgen _ (fun config => buildWalletAndWaitForFunds sdk config sd)
                rest _ Htr Hrest).
  - destruct (buildFreshWallet_frame sdk (endpoints_of n1) w2)
      as (_ & _ & _ & _ & _ & rest & Htr & _ & _ & Hrest & _).
    apply (Hgen _ (fun config => buildFreshWallet sdk config) rest _ Htr Hrest).
Qed.

(** X10. [setup] on a freshly constructed [LocalTestConfig] sets the
    identifier to [Undeployed], logs that it sets the wallet up, and makes
    its only construction call with the standalone endpoints, the genesis
    seed and [Undeployed], whatever identifier was set before. *)
Theorem setup_on_LocalTestConfig (sdk : Sdk) (w : World) :
  exists rest,
    since w (snd ((tc <- LocalTestConfig ;; setup sdk tc) w)) =
      EvSetNetworkId Undeployed
      :: EvLog (info "Setting up wallet")
      :: EvBuild (mkBuildArgs "http://127.0.0.1:8088/api/v1/graphql"
                              "ws://127.0.0.1:8088/api/v1/graphql/ws"
                              "http://127.0.0.1:6300"
                              "http://127.0.0.1:9944"
                              "0000000000000000000000000000000000000000000000000000000000000001"
                              Undeployed "warn")
      :: rest /\
    builds_of rest = [] /\
    List.filter is_set_network rest = [].
Proof.
  set (w1 := emit (EvSetNetworkId Undeployed) (with_networkId Undeployed w)).
  assert ((tc <- LocalTestConfig ;; setup sdk tc) w =
          setup sdk sample_local_config w1) as -> by reflexivity.
  rewrite setup_eq.
  destruct (buildWalletAndWaitForFunds_trace sdk (endpoints_of standalone)
              GENESIS_MINT_WALLET_SEED
              (emit (EvLog (info "Setting up wallet")) w1))
    as (rest & Htr & Hrest).
  destruct (buildWalletAndWaitForFunds_no_close sdk (endpoints_of standalone)
              GENESIS_MINT_WALLET_SEED
              (emit (EvLog (info "Setting up wallet")) w1)) as [_ Hset].
  rewrite (since_app _ _ _ Htr) in Hset.
  cbn [List.filter is_set_network] in Hset.
  rewrite trace_emit in Htr. unfold w1 in Htr at 2.
  rewrite trace_emit in Htr.
  cbn [trace with_networkId] in Htr. rewrite <- !app_assoc in Htr.
  cbn [app] in Htr.
  exists rest. split; [|split; [exact Hrest|exact Hset]].
  change (dappConfig sample_local_config) with (endpoints_of standalone).
  change (seed sample_local_config) with GENESIS_MINT_WALLET_SEED.
  destruct (buildWalletAndWaitForFunds sdk (endpoints_of standalone)
              GENESIS_MINT_WALLET_SEED
              (emit (EvLog (info "Setting up wallet")) w1))
    as [[h|e|c|] w3]; cbn [snd] in *;
    unfold since; cbn [trace with_this_wallet];
    rewrite Htr, drop_app_length; reflexivity.
Qed.

(** ** More on the entry point *)

Lemma getNetworkFromArgs_usage (argv : list string) (w : World) :
  argv !! 2%nat = None \/ argv !! 2%nat = Some "" ->
  getNetworkFromArgs argv w = (Exit 1, emit_all (map EvStdout usage_lines) w).
Proof.
  intros [H|H]; unfold getNetworkFromArgs; rewrite H;
    cbn [not_given String.eqb];
    unfold bind, console_log, act, process_exit; cbv beta iota;
    f_equal; world_eq.
Qed.

Lemma getNetworkFromArgs_invalid (argv : list string) (name : string) (w : World) :
  argv !! 2%nat = Some name ->
  name <> "" -> name <> "standalone" -> name <> "testnet" ->
  getNetworkFromArgs argv w =
    (Exit 1,
     emit_all [ EvStderr ("Invalid network: " +:+ name);
                EvStderr "Valid options: standalone, testnet" ] w).
Proof.
  intros H Hne Hs Ht. unfold getNetworkFromArgs. rewrite H.
  cbn [not_given from_option id].
  apply String.eqb_neq in Hne, Hs, Ht. rewrite Hne, Hs, Ht.
  unfold bind, console_error, act, process_exit; cbv beta iota.
  f_equal; world_eq.
Qed.

(** X11. [getNetworkFromArgs] returns a network exactly when the third
    element of [process.argv] is that network's name, and then it has
    printed nothing; on every other command line it ends the process with
    status 1. It never throws and never waits, and it looks at nothing
    but the third element. *)
Theorem getNetworkFromArgs_returns_iff (argv : list string) (w : World) :
  (forall net w',
      getNetworkFromArgs argv w = (Ret net, w') <->
      argv !! 2%nat = Some (network_name net) /\ w' = w) /\
  ((forall net, argv !! 2%nat <> Some (network_name net)) ->
   fst (getNetworkFromArgs argv w) = Exit 1) /\
  (forall argv',
      argv' !! 2%nat = argv !! 2%nat ->
      getNetworkFromArgs argv' w = getNetworkFromArgs argv w).
Proof.
  split; [|split].
  - intros net w'. split.
    + intros E.
      destruct (network_argument_cases argv)
        as [Hu|[[net0 Hv]|(name & Hn & H1 & H2 & H3)]].
      * rewrite (getNetworkFromArgs_usage argv w Hu) in E. discriminate E.
      * rewrite (getNetworkFromArgs_valid net0 argv w Hv) in E.
        inversion E; subst. split; [exact Hv|reflexivity].
      * rewrite (getNetworkFromArgs_invalid argv name w Hn H1 H2 H3) in E.
        discriminate E.
    + intros [Hv ->]. apply getNetworkFromArgs_valid. exact Hv.
  - intros Hnone.
    destruct (network_argument_cases argv)
      as [Hu|[[net0 Hv]|(name & Hn & H1 & H2 & H3)]].
    + rewrite (getNetworkFromArgs_usage argv w Hu). reflexivity.
    + exfalso. exact (Hnone net0 Hv).
    + rewrite (getNetworkFromArgs_invalid argv name w Hn H1 H2 H3). reflexivity.
  - intros argv' E. unfold getNetworkFromArgs. rewrite E. reflexivity.
Qed.

Lemma getNetworkFromArgs_returns_iff_witness :
  getNetworkFromArgs
    [ "/usr/bin/node"; "/app/dist/create-wallet.js"; "testnet"; "--verbose" ]
    initial_world = (Ret testnet, initial_world) /\
  fst (getNetworkFromArgs (sample_argv "Testnet") initial_world) = Exit 1.
Proof.
  split.
  - apply (proj1 (getNetworkFromArgs_returns_iff
                    [ "/usr/bin/node"; "/app/dist/create-wallet.js";
                      "testnet"; "--verbose" ] initial_world)).
    split; reflexivity.
  - apply (proj1 (proj2 (getNetworkFromArgs_returns_iff
                           (sample_argv "Testnet") initial_world))).
    intros net. destruct net; discriminate.
Defined.

Lemma buildFreshWallet_fails_silently
  (sdk : Sdk) (config : Config) (w : World) :
  (forall h s, fst (buildFreshWallet sdk config w) <> Ret (h, s)) ->
  logged_of (since w (snd (buildFreshWallet sdk config w))) = [] /\
  stdout_of (since w (snd (buildFreshWallet sdk config w))) = [] /\
  stderr_of (since w (snd (buildFreshWallet sdk config w))) = [].
Proof.
  rewrite buildFreshWallet_eq. cbv zeta.
  destruct (buildFromSeed sdk _) as [e|h].
  { intros _. cbn [snd]. world_norm. rewrite since_emit_all by reflexivity.
    repeat split. }
  destruct (w_start h) as [e|].
  { intros _. cbn [snd]. world_norm. rewrite since_emit_all by reflexivity.
    repeat split. }
  destruct (firstValueFrom _) as [state|e|].
  - intros Hno. exfalso. eapply Hno. reflexivity.
  - intros _. cbn [snd]. world_norm. rewrite since_emit_all by reflexivity.
    repeat split.
  - intros _. cbn [snd]. world_norm. rewrite since_emit_all by reflexivity.
    repeat split.
Qed.



(** X13. When [buildFreshWallet] throws in [main], called with a valid
    network argument, [main] makes no [console.log] and no
    [console.error] call (the banner is not printed), calls the logger
    exactly twice, once before the attempt and once at level error with
    the thrown error attached (the seed, address and balance lines are not
    logged), makes no close attempt, sets [process.exitCode] to 1 and
    returns. While [buildFreshWallet] waits for ever, so does [main], with
    only the first logger call made and no line written to the console. *)
Theorem main_failed_construction
  (sdk : Sdk) (net : NetworkType) (argv : list string) (w : World) :
  argv !! 2%nat = Some (network_name net) ->
  let built := buildFreshWallet sdk (endpoints_of net) (before_build net w) in
  let final := main sdk argv w in
  let creating :=
    mkLogCall Info (BindNetwork (network_name net)) "Creating new wallet" in
  (forall e,
      fst built = Throw e ->
      fst final = Ret tt /\
      exitCode (snd final) = Some 1 /\
      logged_of (since w (snd final)) =
        [ creating;
          mkLogCall LvlError (BindErr e) "Error while creating wallet" ] /\
      stdout_of (since w (snd final)) = [] /\
      stderr_of (since w (snd final)) = [] /\
      List.filter is_close (since w (snd final)) = []) /\
  (fst built = Blocked ->
   fst final = Blocked /\
   logged_of (since w (snd final)) = [ creating ] /\
   stdout_of (since w (snd final)) = [] /\
   stderr_of (since w (snd final)) = [] /\
   List.filter is_close (since w (snd final)) = []).
Proof.
  intros Hv built final creating.
  assert (trace (before_build net w) =
          trace w ++ [EvSetNetworkId (id_of net); EvLog creating]) as Htr0.
  { unfold before_build. cbn [trace with_main_wallet]. rewrite trace_emit.
    rewrite trace_emit. cbn [trace with_networkId].
    rewrite <- app_assoc. reflexivity. }
  assert ((forall h s, fst built <> Ret (h, s)) ->
          exists evs,
            trace (snd built) =
              trace w ++ EvSetNetworkId (id_of net) :: EvLog creating :: evs /\
            logged_of evs = [] /\ stdout_of evs = [] /\ stderr_of evs = [] /\
            List.filter is_close evs = [])
    as Hsilent.
  { intros Hno.
    destruct (buildFreshWallet_fails_silently sdk (endpoints_of net)
                (before_build net w) Hno) as (Hl & Ho & He).
    fold built in Hl, Ho, He.
    destruct (buildFreshWallet_frame sdk (endpoints_of net) (before_build net w))
      as (_ & _ & _ & _ & _ & evs & Htr & _ & _ & _ & Hc & _).
    fold built in Htr.
    rewrite (since_app _ _ _ Htr) in Hl, Ho, He.
    rewrite Htr0, <- app_assoc in Htr. cbn [app] in Htr.
    eexists. split; [exact Htr|]. split; [exact Hl|]. split; [exact Ho|].
    split; [exact He|]. cbn [List.filter is_close]. exact Hc. }
  unfold final. rewrite (main_eq sdk net argv w Hv). fold built.
  split.
  - intros e He.
    destruct Hsilent as (evs & Htr & Hl & Ho & Herr & Hc).
    { intros h s. rewrite He. discriminate. }
    destruct built as [[[h s]|e0|c|] w1]; cbn [fst snd] in *;
      try discriminate He.
    injection He as ->.
    split; [reflexivity|]. split; [reflexivity|].
    world_norm.
    rewrite (since_emit_all_from w (with_exitCode 1 w1) _ _ Htr).
    unfold logged_of, stdout_of, stderr_of in *.
    cbn [app pick List.filter is_close].
    rewrite !pick_app, !List.filter_app, Hl, Ho, Herr, Hc. repeat split.
  - intros Hb.
    destruct Hsilent as (evs & Htr & Hl & Ho & Herr & Hc).
    { intros h s. rewrite Hb. discriminate. }
    destruct built as [[[h s]|e0|c|] w1]; cbn [fst snd] in *;
      try discriminate Hb.
    split; [reflexivity|].
    rewrite (since_app _ _ _ Htr).
    unfold logged_of, stdout_of, stderr_of in *.
    cbn [pick List.filter is_close].
    rewrite Hl, Ho, Herr, Hc. repeat split.
Qed.

Lemma main_failed_construction_witness :
  fst (main (stub_sdk (inl sample_error)) (sample_argv "testnet") initial_world)
    = Ret tt /\
  logged_of (since initial_world
               (snd (main (stub_sdk (inl sample_error)) (sample_argv "testnet")
                          initial_world))) =
    [ mkLogCall Info (BindNetwork "testnet") "Creating new wallet";
      mkLogCall LvlError (BindErr sample_error) "Error while creating wallet" ].
Proof.
  destruct (proj1 (main_failed_construction (stub_sdk (inl sample_error))
                     testnet (sample_argv "testnet") initial_world eq_refl)
                  sample_error eq_refl) as (Hr & _ & Hl & _).
  split; [exact Hr|exact Hl].
Defined.

(** ** More on the seed *)

Lemma hex_of_byte_decode (b : byte) :
  exists c1 c2,
    hex_of_byte b = String c1 (String c2 EmptyString) /\
    Byte.of_N (16 * hex_value c1 + hex_value c2) = Some b.
Proof. destruct b; eexists; eexists; split; reflexivity. Qed.

Lemma toHex_injective (bytes1 bytes2 : list byte) :
  toHex bytes1 = toHex bytes2 -> bytes1 = bytes2.
Proof.
  revert bytes2. induction bytes1 as [|b1 r1 IH]; intros [|b2 r2] E.
  - reflexivity.
  - cbn [toHex] in E.
    destruct (hex_of_byte_decode b2) as (c1 & c2 & E2 & _).
    rewrite E2, append_two in E. discriminate E.
  - cbn [toHex] in E.
    destruct (hex_of_byte_decode b1) as (c1 & c2 & E1 & _).
    rewrite E1, append_two in E. discriminate E.
  - cbn [toHex] in E.
    destruct (hex_of_byte_decode b1) as (c1 & c2 & E1 & D1).
    destruct (hex_of_byte_decode b2) as (d1 & d2 & E2 & D2).
    rewrite E1, E2, !append_two in E.
    injection E as -> -> Er.
    rewrite D1 in D2. injection D2 as ->.
    rewrite (IH r2 Er). reflexivity.
Qed.

(** X14. The seed that [buildFreshWallet] returns loses nothing of the 32
    bytes it drew: two calls that return the same seed, in any two worlds
    and with any two SDKs, drew the same bytes; so different draws are
    shown as different seeds. *)
Theorem fresh_seed_determines_drawn_bytes
  (sdk1 sdk2 : Sdk) (config1 config2 : Config) (w1 w2 : World)
  (h1 h2 : WalletHandle) (s : string) (w1' w2' : World) :
  buildFreshWallet sdk1 config1 w1 = (Ret (h1, s), w1') ->
  buildFreshWallet sdk2 config2 w2 = (Ret (h2, s), w2') ->
  map (getRandomValues sdk1) (seq (drawn w1) 32) =
    map (getRandomValues sdk2) (seq (drawn w2) 32).
Proof.
  intros E1 E2.
  apply buildFreshWallet_returns_fresh_seed in E1, E2.
  apply toHex_injective. unfold fresh_seed in E1, E2. congruence.
Qed.

Lemma fresh_seed_determines_drawn_bytes_witness :
  map (getRandomValues sample_sdk) (seq 0 32) =
    map (getRandomValues sample_sdk) (seq (drawn initial_world) 32).
Proof.
  apply (fresh_seed_determines_drawn_bytes sample_sdk sample_sdk
           (endpoints_of standalone) (endpoints_of testnet)
           initial_world initial_world
           (sample_wallet (build_args (endpoints_of standalone)
                             (fresh_seed sample_sdk initial_world)
                             initial_world))
           (sample_wallet (build_args (endpoints_of testnet)
                             (fresh_seed sample_sdk initial_world)
                             initial_world))
           (fresh_seed sample_sdk initial_world) _ _ eq_refl eq_refl).
Defined.
